(** * telegram_parser: the selector conversation and the page scraper

    A shallow embedding of [src/app/handlers/handlers.py] (the aiogram
    router: one handler per conversation step, and the two formatters) and
    of [src/core/scraper/bs4_scraper.py] (class [Parser]), followed by the
    properties of the specification that were checked against it.

    Conventions.
    - A Python [str] is the list of its code points ([len] is [length]).
      Literals are written as UTF-8 text and decoded by [u].
    - A Python [dict] is an association list without repeated keys, in
      insertion order; [d[k] = v] is [dict_set].
    - Handlers run in a small state/output/exception monad [M] over the two
      stores of the bot: the FSM storage of aiogram, keyed by
      (chat id, user id), and the module-level [user_selectors], keyed by
      user id alone.
    - What the program cannot decide by itself is a parameter: the case
      mappings [str.lower]/[str.upper] ([CaseOps]), aiogram's [Command]
      filter ([Aiogram]) and the network and HTML library ([Web]).
      Theorems hold for every choice of them; [basic_case],
      [slash_command] and [toy_web] are there to run given turns. *)

From Stdlib Require Import ZArith NArith List String Ascii Lia Bool.
From stdpp Require Import base option list gmap.
Import ListNotations.

(** ** Python strings *)

Abbreviation str := (list N).

(** UTF-8 decoding of the bytes of a literal (well-formed input only). *)
Fixpoint utf8_decode (bs : list N) : str :=
  match bs with
  | [] => []
  | b0 :: r0 =>
    if (b0 <? 128)%N then b0 :: utf8_decode r0
    else match r0 with
    | [] => []
    | b1 :: r1 =>
      if (b0 <? 224)%N
      then ((b0 mod 32) * 64 + b1 mod 64)%N :: utf8_decode r1
      else match r1 with
      | [] => []
      | b2 :: r2 =>
        if (b0 <? 240)%N
        then ((b0 mod 16) * 4096 + (b1 mod 64) * 64 + b2 mod 64)%N
             :: utf8_decode r2
        else match r2 with
        | [] => []
        | b3 :: r3 =>
          ((b0 mod 8) * 262144 + (b1 mod 64) * 4096
           + (b2 mod 64) * 64 + b3 mod 64)%N :: utf8_decode r3
        end
      end
    end
  end.

Definition u (s : string) : str :=
  utf8_decode (map N_of_ascii (list_ascii_of_string s)).

#[global] Arguments u : simpl never.

Definition nl : str := [10%N].
Definition dq : str := [34%N].

(** [str.isspace] on one code point: the white space of the Unicode
    database as CPython's [_PyUnicode_IsWhitespace] lists it. *)
Definition isspace (c : N) : bool :=
  ((9 <=? c) && (c <=? 13) || (28 <=? c) && (c <=? 32)
   || (c =? 133) || (c =? 160) || (c =? 5760)
   || (8192 <=? c) && (c <=? 8202)
   || (c =? 8232) || (c =? 8233) || (c =? 8239) || (c =? 8287)
   || (c =? 12288))%N.

Fixpoint lstrip (s : str) : str :=
  match s with
  | c :: r => if isspace c then lstrip r else s
  | [] => []
  end.

Definition rstrip (s : str) : str := rev (lstrip (rev s)).

(** [s.strip()] *)
Definition strip (s : str) : str := rstrip (lstrip s).

(** [s.startswith(p)] *)
Fixpoint startswith (p s : str) : bool :=
  match p, s with
  | [], _ => true
  | a :: p', b :: s' => (a =? b)%N && startswith p' s'
  | _ :: _, [] => false
  end.

(** [s == t] *)
Definition str_eqb (s t : str) : bool := bool_decide (s = t).

(** [sep.join(parts)] *)
Fixpoint join (sep : str) (parts : list str) : str :=
  match parts with
  | [] => []
  | [p] => p
  | p :: rest => p ++ sep ++ join sep rest
  end.

Fixpoint digits_of_uint (d : Decimal.uint) : str :=
  match d with
  | Decimal.Nil => []
  | Decimal.D0 r => 48%N :: digits_of_uint r
  | Decimal.D1 r => 49%N :: digits_of_uint r
  | Decimal.D2 r => 50%N :: digits_of_uint r
  | Decimal.D3 r => 51%N :: digits_of_uint r
  | Decimal.D4 r => 52%N :: digits_of_uint r
  | Decimal.D5 r => 53%N :: digits_of_uint r
  | Decimal.D6 r => 54%N :: digits_of_uint r
  | Decimal.D7 r => 55%N :: digits_of_uint r
  | Decimal.D8 r => 56%N :: digits_of_uint r
  | Decimal.D9 r => 57%N :: digits_of_uint r
  end.

(** [str(n)] for a non-negative [int], as an f-string renders it. *)
Definition str_of_nat (n : nat) : str := digits_of_uint (Nat.to_uint n).

(** [str(x)] of an optional string inside an f-string. *)
Definition str_of_opt (o : option str) : str :=
  match o with
  | Some s => s
  | None => u "None"
  end.

(** [if x:] on a string that may be [None]. *)
Definition truthy (o : option str) : bool :=
  match o with
  | Some (_ :: _) => true
  | _ => false
  end.

(** [str(z)] for an [int]. *)
Definition str_of_Z (z : Z) : str :=
  if (z <? 0)%Z then 45%N :: str_of_nat (Z.abs_nat z)
  else str_of_nat (Z.abs_nat z).

(** [str.lower] and [str.upper] follow the Unicode character database
    (they may change the length of a string); the handlers are written
    against any pair of such functions. *)
Class CaseOps := {
  lower : str -> str;
  upper : str -> str
}.

(** The case mappings on Basic Latin and on the Cyrillic block
    U+0400..U+045F, where they map code point to code point; other code
    points are left alone.  Used to run the handlers on concrete turns. *)
Definition lower_char (c : N) : N :=
  (if (65 <=? c) && (c <=? 90) then c + 32
   else if (1040 <=? c) && (c <=? 1071) then c + 32
   else if (1024 <=? c) && (c <=? 1039) then c + 80
   else c)%N.

Definition upper_char (c : N) : N :=
  (if (97 <=? c) && (c <=? 122) then c - 32
   else if (1072 <=? c) && (c <=? 1103) then c - 32
   else if (1104 <=? c) && (c <=? 1119) then c - 80
   else c)%N.

Definition basic_case : CaseOps :=
  {| lower := map lower_char; upper := map upper_char |}.

(** ** Python dictionaries *)

Section Dict.
Context {V : Type}.

(** [d.get(k)] *)
Fixpoint dict_get (k : str) (d : list (str * V)) : option V :=
  match d with
  | [] => None
  | (k', v') :: r => if str_eqb k k' then Some v' else dict_get k r
  end.

(** [d[k] = v]: an existing key keeps its place, a new key goes last. *)
Fixpoint dict_set (k : str) (v : V) (d : list (str * V)) : list (str * V) :=
  match d with
  | [] => [(k, v)]
  | (k', v') :: r =>
    if str_eqb k k' then (k, v) :: r else (k', v') :: dict_set k v r
  end.

Definition dict_keys (d : list (str * V)) : list str := map fst d.

(** [not d] *)
Definition dict_is_empty (d : list (str * V)) : bool :=
  match d with [] => true | _ => false end.
End Dict.

(** ** Exceptions, stores and the handler monad *)

Inductive ExcClass :=
| KeyError
| AttributeError
| HTTPStatusError (code : Z)
| TimeoutException
| RequestError
| OtherException
(* not a Python exception: the run left the declared types *)
| Untyped.

(** An instance of [Exception]: its class and [str(e)]. *)
Record PyExc := mkExc { exc_class : ExcClass; exc_text : str }.

Inductive ParseSteps :=
| WAITING_FOR_URL
| WAITING_FOR_SELECTOR_NAME
| WAITING_FOR_SELECTOR_VALUE
| WAITING_FOR_SELECTOR_ATTR
| CONFIRM_SELECTORS.

(** The FSM data of one conversation: the keys the handlers write with
    [state.update_data]; [None] is an absent key ([data.get] gives
    [None]). *)
Record FsmData := mkData {
  url : option str;
  current_selector : option str;
  selector_type : option str;
  selector_value : option str
}.

Definition no_data : FsmData := mkData None None None None.

(** One record of aiogram's storage; [None] is the default state. *)
Record FsmRecord := mkFsm {
  fsm_state : option ParseSteps;
  fsm_data : FsmData
}.

Definition fresh_record : FsmRecord := mkFsm None no_data.

(** A value of a selector dictionary: a CSS selector string, or the
    dictionary [{'selector': ..., 'attr': ...}]. *)
Inductive SelectorInfo :=
| SelStr (css : str)
| SelDict (selector : option str) (attr : str).

Abbreviation Selectors := (list (str * SelectorInfo)).
Abbreviation Results := (list (str * list str)).

Record Store := mkStore {
  fsm : gmap (Z * Z) FsmRecord;
  user_selectors : gmap Z Selectors
}.

Definition empty_store : Store := mkStore ∅ ∅.

Record Message := mkMessage {
  chat_id : Z;
  from_user_id : Z;
  text : option str
}.

Inductive LogLevel := INFO | WARNING | ERROR.

(** The call site of a log record and the values it formats. *)
Inductive LogSite :=
| LogPageLoaded (url : option str)
| LogHttpError (code : Z) (url : option str)
| LogTimeout (url : option str)
| LogRequestError (url : option str)
| LogUnknownError (url : option str)
| LogEmptySoup
| LogFound (selector : str) (n : nat)
| LogSelectorError (selector : str)
| LogNoneSoup
| LogNoSelector (field_name : str)
| LogSelectorsError
| LogPageFailed (url : option str)
| LogParseError.

Inductive Event :=
| Answer (chat : Z) (reply : str)
| HttpGet (url : option str) (timeout : Z)
| Log (lvl : LogLevel) (site : LogSite).

Record Res (A : Type) := mkRes {
  res_store : Store;
  res_out : list Event;
  res_val : A + PyExc
}.
Arguments mkRes {A} _ _ _.
Arguments res_store {A} _.
Arguments res_out {A} _.
Arguments res_val {A} _.

Definition M (A : Type) : Type := Store -> Res A.

#[global] Instance M_ret : MRet M := λ A a s, mkRes s [] (inl a).

#[global] Instance M_bind : MBind M := λ A B f m s,
  match m s with
  | mkRes s1 out1 (inl a) =>
    match f a s1 with
    | mkRes s2 out2 v => mkRes s2 (out1 ++ out2) v
    end
  | mkRes s1 out1 (inr e) => mkRes s1 out1 (inr e)
  end.

Definition raise {A} (e : PyExc) : M A := λ s, mkRes s [] (inr e).

Definition emit (ev : Event) : M unit := λ s, mkRes s [ev] (inl tt).

(** [try: body  except Exception as e: handler(e)] *)
Definition try_except {A} (body : M A) (handler : PyExc -> M A) : M A := λ s,
  match body s with
  | mkRes s1 out1 (inl a) => mkRes s1 out1 (inl a)
  | mkRes s1 out1 (inr e) =>
    match handler e s1 with
    | mkRes s2 out2 v => mkRes s2 (out1 ++ out2) v
    end
  end.

(** The outcome of [m] as a value: nothing is raised. *)
Definition attempt {A} (m : M A) : M (A + PyExc) := λ s,
  match m s with
  | mkRes s1 out1 v => mkRes s1 out1 (inl v)
  end.

Definition get_store : M Store := λ s, mkRes s [] (inl s).

(** The result of a library call brought into the monad. *)
Definition lift {A} (r : A + PyExc) : M A :=
  match r with
  | inl a => mret a
  | inr e => raise e
  end.

Definition log (lvl : LogLevel) (site : LogSite) : M unit :=
  emit (Log lvl site).

(** ** The network and the HTML library *)

Record Response := mkResponse { status_code : Z; body : str }.

(** What [elem.get(attr)] can be: a string, or a list for the
    multi-valued attributes ([class], [rel], ...). *)
Inductive AttrValue :=
| AttrStr (s : str)
| AttrList (l : list str).

(** httpx and BeautifulSoup, as the scraper calls them.  A call returns
    or raises. *)
Class Web (Document Element : Type) := {
  (* httpx.get(url, headers=..., timeout=..., follow_redirects=True) *)
  httpx_get : option str -> Z -> Response + PyExc;
  (* BS(response.text, self.parser) *)
  BS : str -> Document + PyExc;
  (* soup.select(selector) *)
  select : Document -> str -> list Element + PyExc;
  (* elem.get_text(strip=True) *)
  get_text : Element -> str;
  (* elem.get(attr); None when the attribute is missing *)
  elem_get : Element -> str -> option AttrValue
}.

(** aiogram's [Command(name)] filter on a message. *)
Class Aiogram := {
  command : str -> Message -> bool
}.

Section Scraper.
Context {Document Element : Type} {web : Web Document Element}.

(** [Parser(timeout=...)].  The headers are the fixed default set and
    the HTML parser ([lxml], else [html.parser]) is chosen once: both are
    part of [httpx_get] and [BS]. *)
Record Parser := mkParser { timeout : Z }.

(** [response.raise_for_status()]: httpx raises unless the status is 2xx. *)
Definition raise_for_status (response : Response) : M unit :=
  if ((200 <=? status_code response) && (status_code response <=? 299))%Z
  then mret tt
  else
    raise (mkExc (HTTPStatusError (status_code response))
             (u "HTTPStatusError")).

Definition fetch_page (self : Parser) (url : option str)
  : M (option Document) :=
  try_except
    (emit (HttpGet url (timeout self));;
     response ← lift (httpx_get url (timeout self));
     raise_for_status response;;
     soup ← lift (BS (body response));
     log INFO (LogPageLoaded url);;
     mret (Some soup))
    (λ e,
     match exc_class e with
     | HTTPStatusError code => log ERROR (LogHttpError code url)
     | TimeoutException => log ERROR (LogTimeout url)
     | RequestError => log ERROR (LogRequestError url)
     | _ => log ERROR (LogUnknownError url)
     end;;
     mret None).

(** The [for elem in elements] loop of [extract_by_selector]: the list
    built so far, and the exception that stopped the loop, if any. *)
Fixpoint collect (attr : option str) (elements : list Element)
  (results : list str) : list str * option PyExc :=
  match elements with
  | [] => (results, None)
  | elem :: rest =>
    if truthy attr then
      match default (AttrStr []) (elem_get elem (default [] attr)) with
      | AttrStr s =>
        let value := strip s in
        collect attr rest
          (if truthy (Some value) then results ++ [value] else results)
      | AttrList _ =>
        (results,
         Some (mkExc AttributeError
                 (u "'list' object has no attribute 'strip'")))
      end
    else
      let t := get_text elem in
      collect attr rest (if truthy (Some t) then results ++ [t] else results)
  end.

Definition extract_by_selector (self : Parser) (soup : option Document)
  (selector : str) (attr : option str) : M (list str) :=
  match soup with
  | None => log WARNING LogEmptySoup;; mret []
  | Some doc =>
    match select doc selector with
    | inr e => log ERROR (LogSelectorError selector);; mret []
    | inl elements =>
      log INFO (LogFound selector (length elements));;
      match collect attr elements [] with
      | (results, None) => mret results
      | (results, Some e) =>
        log ERROR (LogSelectorError selector);; mret results
      end
    end
  end.

(** The [for field_name, selector_info in selectors.items()] loop, inside
    the [try] of [extract_multiple]: an exception ends the loop, is
    logged, and the dictionary built so far is returned. *)
Fixpoint extract_fields (self : Parser) (soup : option Document)
  (selectors : Selectors) (results : Results) : M Results :=
  match selectors with
  | [] => mret results
  | (field_name, selector_info) :: rest =>
    match selector_info with
    | SelStr css =>
      r ← attempt (extract_by_selector self soup css None);
      match r with
      | inl found =>
        extract_fields self soup rest (dict_set field_name found results)
      | inr e => log ERROR LogSelectorsError;; mret results
      end
    | SelDict selector attr =>
      if truthy selector then
        r ← attempt
              (extract_by_selector self soup (default [] selector) (Some attr));
        match r with
        | inl found =>
          extract_fields self soup rest (dict_set field_name found results)
        | inr e => log ERROR LogSelectorsError;; mret results
        end
      else
        log WARNING (LogNoSelector field_name);;
        extract_fields self soup rest results
    end
  end.

Definition extract_multiple (self : Parser) (soup : option Document)
  (selectors : Selectors) : M Results :=
  match soup with
  | None => log ERROR LogNoneSoup;; mret []
  | Some _ => extract_fields self soup selectors []
  end.

Definition main_parse (self : Parser) (url : option str)
  (selectors : Selectors) : M Results :=
  soup ← fetch_page self url;
  match soup with
  | None => log ERROR (LogPageFailed url);; mret []
  | Some _ => extract_multiple self soup selectors
  end.

End Scraper.

(** ** The FSM context and the selector store *)

Definition key_of (message : Message) : Z * Z :=
  (chat_id message, from_user_id message).

Definition fsm_record (k : Z * Z) (s : Store) : FsmRecord :=
  default fresh_record (fsm s !! k).

Definition put_record (k : Z * Z) (r : FsmRecord) (s : Store) : Store :=
  mkStore (<[k := r]> (fsm s)) (user_selectors s).

(** [await state.get_data()] *)
Definition get_data (k : Z * Z) : M FsmData := λ s,
  mkRes s [] (inl (fsm_data (fsm_record k s))).

(** [await state.update_data(...)] *)
Definition update_data (k : Z * Z) (f : FsmData -> FsmData) : M unit := λ s,
  let r := fsm_record k s in
  mkRes (put_record k (mkFsm (fsm_state r) (f (fsm_data r))) s) [] (inl tt).

(** [await state.set_state(...)] *)
Definition set_state (k : Z * Z) (st : option ParseSteps) : M unit := λ s,
  let r := fsm_record k s in
  mkRes (put_record k (mkFsm st (fsm_data r)) s) [] (inl tt).

(** [await state.clear()]: the state and the data are both dropped. *)
Definition clear (k : Z * Z) : M unit := λ s,
  mkRes (put_record k fresh_record s) [] (inl tt).

Definition set_url (v : str) (d : FsmData) : FsmData :=
  mkData (Some v) (current_selector d) (selector_type d) (selector_value d).
Definition set_current_selector (v : str) (d : FsmData) : FsmData :=
  mkData (url d) (Some v) (selector_type d) (selector_value d).
Definition set_selector_type (v : str) (d : FsmData) : FsmData :=
  mkData (url d) (current_selector d) (Some v) (selector_value d).
Definition set_selector_value (v : str) (d : FsmData) : FsmData :=
  mkData (url d) (current_selector d) (selector_type d) (Some v).

(** [user_selectors.get(user_id, {})] *)
Definition selectors_of (user_id : Z) (s : Store) : Selectors :=
  default [] (user_selectors s !! user_id).

Definition put_selectors (user_id : Z) (d : Selectors) (s : Store) : Store :=
  mkStore (fsm s) (<[user_id := d]> (user_selectors s)).

(** [user_selectors[user_id] = {}] *)
Definition reset_selectors (user_id : Z) : M unit := λ s,
  mkRes (put_selectors user_id [] s) [] (inl tt).

(** [user_selectors[user_id][selector_name] = value] *)
Definition store_selector (user_id : Z) (selector_name : str)
  (value : SelectorInfo) : M unit := λ s,
  match user_selectors s !! user_id with
  | Some d =>
    mkRes (put_selectors user_id (dict_set selector_name value d) s)
      [] (inl tt)
  | None => mkRes s [] (inr (mkExc KeyError (str_of_Z user_id)))
  end.

#[global] Arguments fsm_record : simpl never.
#[global] Arguments put_record : simpl never.
#[global] Arguments put_selectors : simpl never.
#[global] Arguments selectors_of : simpl never.

(** [await message.answer(reply)] *)
Definition answer (message : Message) (reply : str) : M unit :=
  emit (Answer (chat_id message) reply).

(** [message.text], about to receive a [str] method. *)
Definition text_of (message : Message) : M str :=
  match text message with
  | Some t => mret t
  | None =>
    raise (mkExc AttributeError
             (u "'NoneType' object has no attribute 'strip'"))
  end.

(** [data.get('current_selector')] used as a key of a selector
    dictionary.  The dictionaries are [Dict[str, Any]]: a [None] key is
    outside the model, and no conversation gets there (lemma
    [dispatch_keeps_pending_name]). *)
Definition field_name_of (data : FsmData) : M str :=
  match current_selector data with
  | Some name => mret name
  | None => raise (mkExc Untyped (u "None used as a field name"))
  end.

(** ** Formatting *)

Definition selector_line (entry : str * SelectorInfo) : str :=
  let '(name, value) := entry in
  match value with
  | SelDict selector attr =>
    u "• " ++ name ++ u ": " ++ str_of_opt selector ++ u " (атрибут: " ++
    attr ++ u ")"
  | SelStr css =>
    u "• " ++ name ++ u ": " ++ css
  end.

Definition format_selectors (selectors : Selectors) : str :=
  if dict_is_empty selectors then u "Пока нет селекторов"
  else join nl (map selector_line selectors).

Section Formatting.
Context {case : CaseOps}.

(** [item_str[:97] + "..."] when [len(item_str) > 100] *)
Definition clip_item (item_str : str) : str :=
  if (100 <? length item_str)%nat then take 97 item_str ++ u "..."
  else item_str.

(** The lines of [for i, item in enumerate(items[:5], 1)], from [i] on. *)
Fixpoint sample_lines (i : nat) (items : list str) : list str :=
  match items with
  | [] => []
  | item :: rest =>
    (u "  " ++ str_of_nat i ++ u ". " ++ clip_item item)
    :: sample_lines (S i) rest
  end.

Definition header_line (field_name : str) (n : nat) : str :=
  u "🔹 " ++ upper field_name ++ u " (найдено: " ++ str_of_nat n ++ u "):".

Definition more_line (n : nat) : str :=
  u "  ... и еще " ++ str_of_nat n ++ u " элементов".

(** The body of the loop over [results.items()] for one field. *)
Definition field_lines (entry : str * list str) : list str :=
  let '(field_name, items) := entry in
  match items with
  | [] => []
  | _ :: _ =>
    [header_line field_name (length items)]
    ++ sample_lines 1 (take 5 items)
    ++ (if (5 <? length items)%nat then [more_line (length items - 5)]
        else [])
    ++ [[]]
  end.

Definition result_lines (results : Results) : list str :=
  [u "📊 РЕЗУЛЬТАТЫ ПАРСИНГА:"; []] ++ concat (map field_lines results).

Definition truncation_marker : str :=
  nl ++ nl ++ u "... (сообщение обрезано, слишком много данных)".

Definition format_results (results : Results) : str :=
  if dict_is_empty results then u "❌ Нет данных"
  else
    let result_text := join nl (result_lines results) in
    if (4000 <? length result_text)%nat
    then take 3990 result_text ++ truncation_marker
    else result_text.

End Formatting.

(** ** The handlers, in the order the router registers them *)

Definition start_text : str :=
  u "Привет! Я — бот-парсер сайтов." ++ nl ++
  u "Я помогу тебе быстро извлечь нужную информацию с любой веб-страницы." ++
  nl ++
  u "Чтобы начать парсинг, воспользуйся командой /parse или выбери ее в меню команд ниже." ++
  nl ++ u "Если нужна помощь или пример использования, набери /help." ++ nl.

Definition help_text : str :=
  u "📚 Инструкция по использованию:" ++ nl ++ nl ++
  u "1. **Начните с команды /parse**" ++ nl ++
  u "2. **Отправьте URL сайта** (например: https://example.com)" ++ nl ++
  u "3. **Добавьте селекторы** - я буду спрашивать:" ++ nl ++
  u "   • Название поля (например: " ++ dq ++ u "titles" ++ dq ++ u ", " ++
  dq ++ u "prices" ++ dq ++ u ")" ++ nl ++
  u "   • CSS-селектор (например: " ++ dq ++ u "h1" ++ dq ++ u ", " ++
  dq ++ u ".price" ++ dq ++ u ", " ++ dq ++ u "#main" ++ dq ++ u ")" ++
  nl ++ u "   • Атрибут (если нужен, например: " ++ dq ++ u "href" ++ dq ++
  u ", " ++ dq ++ u "src" ++ dq ++ u ")" ++ nl ++ nl ++
  u "🔹 **Пример простого селектора:**" ++ nl ++ u "   Название: " ++ dq ++
  u "headers" ++ dq ++ nl ++ u "   Селектор: " ++ dq ++ u "h2" ++ dq ++
  nl ++ nl ++ u "🔹 **Пример селектора с атрибутом:**" ++ nl ++
  u "   Название: " ++ dq ++ u "links" ++ dq ++ nl ++ u "   Селектор: " ++
  dq ++ u "a" ++ dq ++ nl ++ u "   Атрибут: " ++ dq ++ u "href" ++ dq ++
  nl ++ nl ++ u "Когда закончите - отправьте " ++ dq ++ u "готово" ++ dq.

Definition examples : str :=
  nl ++ u "🔸 **Примеры CSS-селекторов:**" ++ nl ++
  u "• `h1` - все заголовки первого уровня" ++ nl ++
  u "• `.title` - все элементы с классом title" ++ nl ++
  u "• `#main` - элемент с id=" ++ dq ++ u "main" ++ dq ++ nl ++
  u "• `a[href]` - все ссылки" ++ nl ++
  u "• `div.product img` - изображения внутри div с классом product" ++
  nl ++ nl ++ u "🔸 **Примеры селекторов с атрибутами:**" ++ nl ++
  u "• Для извлечения ссылок:" ++ nl ++ u "  Название: links" ++ nl ++
  u "  Селектор: a" ++ nl ++ u "  Атрибут: href" ++ nl ++ nl ++
  u "• Для извлечения изображений:" ++ nl ++ u "  Название: images" ++
  nl ++ u "  Селектор: img" ++ nl ++ u "  Атрибут: src" ++ nl ++ nl ++
  u "• Для извлечения данных:" ++ nl ++ u "  Название: prices" ++ nl ++
  u "  Селектор: .price" ++ nl ++ u "  Атрибут: data-value" ++ nl.

(** The reply of [finish_selectors] when there is nothing to extract. *)
Definition no_selectors_text : str :=
  u "❌ Вы не добавили ни одного селектора!" ++ nl ++
  u "Пожалуйста, введите название поля для данных:".

Section Handlers.
Context {case : CaseOps} {aiogram : Aiogram}.
Context {Document Element : Type} {web : Web Document Element}.

(** The keyboard of the reply ([reply_markup]) is left out. *)
Definition start_cmd (message : Message) : M unit :=
  answer message start_text.

Definition get_help (message : Message) : M unit :=
  answer message help_text.

Definition get_parse (message : Message) : M unit :=
  let user_id := from_user_id message in
  s ← get_store;
  (if bool_decide (is_Some (user_selectors s !! user_id))
   then reset_selectors user_id else mret tt);;
  answer message
    (u "🔧 Давайте настроим парсинг!" ++ nl ++ nl ++
     u "Шаг 1: Введите URL сайта (например: https://example.com):");;
  set_state (key_of message) (Some WAITING_FOR_URL).

Definition process_url (message : Message) : M unit :=
  t ← text_of message;
  let user_url := strip t in
  let user_url :=
    if negb (startswith (u "http://") user_url
             || startswith (u "https://") user_url)
    then u "https://" ++ user_url else user_url in
  update_data (key_of message) (set_url user_url);;
  let user_id := from_user_id message in
  reset_selectors user_id;;
  answer message
    (u "✅ URL сохранен: " ++ user_url ++ nl ++ nl ++
     u "Шаг 2: Введите название для первого поля данных" ++ nl ++
     u "(например: 'headers', 'prices', 'links'):");;
  set_state (key_of message) (Some WAITING_FOR_SELECTOR_NAME).

Definition process_selector_name (message : Message) : M unit :=
  t ← text_of message;
  let selector_name := strip t in
  update_data (key_of message) (set_current_selector selector_name);;
  answer message
    (u "✅ Название поля: '" ++ selector_name ++ u "'" ++ nl ++ nl ++
     u "Шаг 3: Введите CSS-селектор для этого поля" ++ nl ++
     u "Примеры:" ++ nl ++ u "• h1, h2 - заголовки" ++ nl ++
     u "• .price - элементы с классом price" ++ nl ++
     u "• a[href] - ссылки" ++ nl ++ u "• #main-content - элемент с id" ++
     nl ++ nl ++ u "Или отправьте 'атрибут' если нужно извлечь атрибут:");;
  set_state (key_of message) (Some WAITING_FOR_SELECTOR_VALUE).

Definition ask_for_next_selector (message : Message) : M unit :=
  let user_id := from_user_id message in
  s ← get_store;
  let current_selectors := selectors_of user_id s in
  let selectors_text := format_selectors current_selectors in
  answer message
    (u "📋 Текущие селекторы:" ++ nl ++ selectors_text ++ nl ++ nl ++
     u "Что дальше?" ++ nl ++ u "• Введите название следующего поля" ++
     nl ++ u "• Или отправьте 'готово' для запуска парсинга" ++ nl ++
     u "• Или отправьте 'очистить' чтобы начать заново");;
  set_state (key_of message) (Some CONFIRM_SELECTORS).

Definition process_selector_value (message : Message) : M unit :=
  t ← text_of message;
  let selector_value := lower (strip t) in
  let user_id := from_user_id message in
  data ← get_data (key_of message);
  if str_eqb selector_value (u "атрибут") then
    answer message
      (u "Введите CSS-селектор для поиска элементов" ++ nl ++
       u "(например: 'a', 'img', '.image'):");;
    update_data (key_of message) (set_selector_type (u "attr"))
  else
    selector_name ← field_name_of data;
    store_selector user_id selector_name (SelStr selector_value);;
    ask_for_next_selector message.

Definition process_selector_for_attr (message : Message) : M unit :=
  t ← text_of message;
  let selector_value := strip t in
  update_data (key_of message) (set_selector_value selector_value);;
  answer message
    (u "✅ Селектор: " ++ selector_value ++ nl ++ nl ++
     u "Введите название атрибута для извлечения" ++ nl ++
     u "(например: 'href', 'src', 'data-id', 'title'):");;
  set_state (key_of message) (Some WAITING_FOR_SELECTOR_ATTR).

Definition process_selector_attr (message : Message) : M unit :=
  t ← text_of message;
  let attr_name := strip t in
  let user_id := from_user_id message in
  data ← get_data (key_of message);
  selector_name ← field_name_of data;
  store_selector user_id selector_name
    (SelDict (selector_value data) attr_name);;
  ask_for_next_selector message.

Definition finish_selectors (message : Message) : M unit :=
  let user_id := from_user_id message in
  data ← get_data (key_of message);
  let url := url data in
  s ← get_store;
  let selectors := selectors_of user_id s in
  if dict_is_empty selectors then
    answer message no_selectors_text;;
    set_state (key_of message) (Some WAITING_FOR_SELECTOR_NAME)
  else
    clear (key_of message);;
    answer message
      (u "🚀 Начинаю парсинг..." ++ nl ++ nl ++ u "🌐 URL: " ++
       str_of_opt url ++ nl ++ u "🔧 Селекторы:" ++ nl ++
       format_selectors selectors ++ nl ++ nl ++
       u "⏳ Пожалуйста, подождите...");;
    try_except
      (let parser := mkParser 30 in
       results ← main_parse parser url selectors;
       if negb (dict_is_empty results) then
         let result_text := format_results results in
         answer message
           (u "✅ Парсинг завершен!" ++ nl ++ nl ++ result_text)
       else
         answer message
           (u "❌ Не удалось получить данные." ++ nl ++
            u "Возможные причины:" ++ nl ++
            u "• Сайт заблокировал доступ" ++ nl ++
            u "• Неверные селекторы" ++ nl ++
            u "• На странице нет элементов по вашим селекторам"))
      (λ e,
       log ERROR LogParseError;;
       answer message
         (u "❌ Произошла ошибка при парсинге:" ++ nl ++
          take 300 (exc_text e))).

Definition clear_selectors (message : Message) : M unit :=
  let user_id := from_user_id message in
  reset_selectors user_id;;
  answer message
    (u "🗑️ Все селекторы очищены!" ++ nl ++ nl ++
     u "Введите название для первого поля данных:");;
  set_state (key_of message) (Some WAITING_FOR_SELECTOR_NAME).

Definition add_next_selector (message : Message) : M unit :=
  t ← text_of message;
  let selector_name := strip t in
  update_data (key_of message) (set_current_selector selector_name);;
  answer message
    (u "✅ Название поля: '" ++ selector_name ++ u "'" ++ nl ++ nl ++
     u "Введите CSS-селектор для этого поля" ++ nl ++
     u "Или отправьте 'атрибут' если нужно извлечь атрибут:");;
  set_state (key_of message) (Some WAITING_FOR_SELECTOR_VALUE).

Definition quick_parse_command (message : Message) : M unit :=
  let example_selectors :=
    [(u "headers", SelStr (u "h1, h2, h3"));
     (u "links", SelDict (Some (u "a[href]")) (u "href"));
     (u "paragraphs", SelStr (u "p"))] in
  answer message
    (u "⚡ Быстрый парсинг" ++ nl ++ nl ++ u "Используйте команду так:" ++
     nl ++ u "/quick_parse https://example.com" ++ nl ++ nl ++
     u "Будут использованы стандартные селекторы:" ++ nl ++
     format_selectors example_selectors).

Definition show_examples (message : Message) : M unit :=
  answer message examples.

(** *** The router *)

(** A registered handler: its filters and its callback. *)
Record Handler := mkHandler {
  accepts : Store -> Message -> bool;
  callback : Message -> M unit
}.

(** [Command(name)] *)
Definition Command (name : str) : Store -> Message -> bool :=
  λ _ message, command name message.

Definition state_is (st : ParseSteps) (o : option ParseSteps) : bool :=
  match o, st with
  | Some WAITING_FOR_URL, WAITING_FOR_URL
  | Some WAITING_FOR_SELECTOR_NAME, WAITING_FOR_SELECTOR_NAME
  | Some WAITING_FOR_SELECTOR_VALUE, WAITING_FOR_SELECTOR_VALUE
  | Some WAITING_FOR_SELECTOR_ATTR, WAITING_FOR_SELECTOR_ATTR
  | Some CONFIRM_SELECTORS, CONFIRM_SELECTORS => true
  | _, _ => false
  end.

(** A state filter: the state of the conversation of the message. *)
Definition in_state (st : ParseSteps) : Store -> Message -> bool :=
  λ s message, state_is st (fsm_state (fsm_record (key_of message) s)).

(** [F.text] *)
Definition F_text (message : Message) : bool := truthy (text message).

(** [F.text.lower() == keyword] *)
Definition F_text_lower_eq (keyword : str) (message : Message) : bool :=
  match text message with
  | Some t => str_eqb (lower t) keyword
  | None => false
  end.

Definition router : list Handler :=
  [ mkHandler (Command (u "start")) start_cmd;
    mkHandler (Command (u "help")) get_help;
    mkHandler (Command (u "parse")) get_parse;
    mkHandler (λ s m, in_state WAITING_FOR_URL s m && F_text m) process_url;
    mkHandler (λ s m, in_state WAITING_FOR_SELECTOR_NAME s m && F_text m)
      process_selector_name;
    mkHandler (λ s m, in_state WAITING_FOR_SELECTOR_VALUE s m && F_text m)
      process_selector_value;
    mkHandler (in_state WAITING_FOR_SELECTOR_VALUE) process_selector_for_attr;
    mkHandler (λ s m, in_state WAITING_FOR_SELECTOR_ATTR s m && F_text m)
      process_selector_attr;
    mkHandler
      (λ s m, in_state CONFIRM_SELECTORS s m
              && F_text_lower_eq (u "готово") m)
      finish_selectors;
    mkHandler
      (λ s m, in_state CONFIRM_SELECTORS s m
              && F_text_lower_eq (u "очистить") m)
      clear_selectors;
    mkHandler (λ s m, in_state CONFIRM_SELECTORS s m && F_text m)
      add_next_selector;
    mkHandler (Command (u "quick_parse")) quick_parse_command;
    mkHandler (Command (u "example")) show_examples ].

(** One update: the first handler whose filters accept the message runs;
    a message no handler accepts changes nothing. *)
Definition dispatch (message : Message) : M unit := λ s,
  match find (λ h, accepts h s message) router with
  | Some h => callback h message s
  | None => (mret tt : M unit) s
  end.

(** The turns of a run, oldest first.  An exception of a handler is
    logged by the dispatcher and the polling goes on: the store is the
    one the handler left. *)
Fixpoint run (turns : list Message) (s : Store) : Store * list Event :=
  match turns with
  | [] => (s, [])
  | message :: rest =>
    match dispatch message s with
    | mkRes s1 out1 _ =>
      let '(s2, out2) := run rest s1 in (s2, out1 ++ out2)
    end
  end.

End Handlers.

(** ** Concrete collaborators, to run the handlers on given turns *)

(** [text.split(maxsplit=1)[0]]: the first word of a text. *)
Fixpoint until_space (s : str) : str :=
  match s with
  | c :: r => if isspace c then [] else c :: until_space r
  | [] => []
  end.

(** A [Command] filter that accepts the texts whose first word is
    [/name] (no bot mention). *)
Definition slash_command : Aiogram :=
  {| command name message :=
       match text message with
       | Some t => str_eqb (until_space (lstrip t)) (47%N :: name)
       | None => false
       end |}.

(** A page element: tag name, text and attributes. *)
Record ToyElement := mkElem {
  tag : str;
  inner : str;
  attrs : list (str * AttrValue)
}.

Definition toy_page : list ToyElement :=
  [ mkElem (u "h1") (u "A") [];
    mkElem (u "h2") (u "B") [];
    mkElem (u "a") (u "t") [(u "href", AttrStr (u "/x"))];
    mkElem (u "a") (u "no-href") [] ].

(** A network with one host: [https://example.com] serves [toy_page],
    [https://example.com/missing] answers 404, [https://slow.example]
    times out and every other request fails to connect.  Selectors are
    tag names. *)
Definition toy_web : Web (list ToyElement) ToyElement :=
  {| httpx_get url _ :=
       if bool_decide (url = Some (u "https://example.com"))
       then inl (mkResponse 200 (u "<html>"))
       else if bool_decide (url = Some (u "https://example.com/missing"))
       then inl (mkResponse 404 [])
       else if bool_decide (url = Some (u "https://slow.example"))
       then inr (mkExc TimeoutException (u "timed out"))
       else inr (mkExc RequestError (u "connection failed"));
     BS _ := inl toy_page;
     select doc css := inl (filter (λ e, tag e = css) doc);
     get_text e := strip (inner e);
     elem_get e attr := dict_get attr (attrs e) |}.

Definition missing_url : option str :=
  Some (u "https://example.com/missing").

(** A text turn of user [user] in chat [chat]. *)
Definition turn (chat user : Z) (t : string) : Message :=
  mkMessage chat user (Some (u t)).

Definition toy_dispatch (message : Message) (s : Store) : Res unit :=
  @dispatch basic_case slash_command _ _ toy_web message s.

Definition toy_run (turns : list Message) (s : Store) : Store * list Event :=
  @run basic_case slash_command _ _ toy_web turns s.


(** User 7 starts a build in chat 1 and gives the url. *)
Definition name_store : Store :=
  fst (toy_run [turn 1 7 "/parse"; turn 1 7 "example.com"] empty_store).

(** ... then adds one selector. *)
Definition review_store : Store :=
  fst (toy_run [turn 1 7 "headers"; turn 1 7 "h1"] name_store).

(** ... then starts another build in chat 2: [user_selectors] has one
    entry per user, so the selectors of chat 1 are gone as well. *)
Definition shared_store : Store :=
  fst (toy_run [turn 2 7 "/parse"] review_store).

(** The keyword of the attribute mode, then a selector and an attribute. *)
Definition attribute_store : Store :=
  fst (toy_run [turn 1 7 "links"; turn 1 7 "атрибут"; turn 1 7 "a"]
         name_store).

(** A selector with capital letters. *)
Definition capitals_store : Store :=
  fst (toy_run [turn 1 7 "titles"; turn 1 7 "DIV.Title"] name_store).

(** A field name of white space only. *)
Definition blank_name_store : Store :=
  fst (toy_run [turn 1 7 " "; turn 1 7 "h1"] name_store).

(** One field with a name of 4000 characters. *)
Definition long_results : Results := [(repeat 97%N 4000, [u "x"])].

(** ** Vocabulary of the specification *)

Definition is_log (ev : Event) : bool :=
  match ev with
  | Log _ _ => true
  | _ => false
  end.

Definition is_get (ev : Event) : bool :=
  match ev with
  | HttpGet _ _ => true
  | _ => false
  end.

(** The number of page loads in a trace: one per extraction run. *)
Definition extraction_runs (out : list Event) : nat :=
  length (filter (λ ev, is_get ev = true) out).

(** The message is none of the commands that the router tries before the
    handlers of the conversation. *)
Definition plain {aiogram : Aiogram} (message : Message) : Prop :=
  command (u "start") message = false
  /\ command (u "help") message = false
  /\ command (u "parse") message = false.

(** The state of the conversation a message belongs to. *)
Definition state_of (message : Message) (s : Store) : option ParseSteps :=
  fsm_state (fsm_record (key_of message) s).

(** The FSM data of the conversation a message belongs to. *)
Definition data_of (message : Message) (s : Store) : FsmData :=
  fsm_data (fsm_record (key_of message) s).

(** The states in which a field name is pending. *)
Definition needs_name (o : option ParseSteps) : bool :=
  match o with
  | Some WAITING_FOR_SELECTOR_VALUE
  | Some WAITING_FOR_SELECTOR_ATTR
  | Some CONFIRM_SELECTORS => true
  | _ => false
  end.

Definition record_ok (r : FsmRecord) : Prop :=
  needs_name (fsm_state r) = true -> current_selector (fsm_data r) <> None.

(** Every conversation that is past the field name has one stored. *)
Definition pending_name_set (s : Store) : Prop :=
  forall k, record_ok (fsm_record k s).

(** "The session is reset": the conversation is back in the default
    state, and the url, the pending data and the selectors are gone. *)
Definition session_reset (message : Message) (s : Store) : Prop :=
  fsm_record (key_of message) s = fresh_record
  /\ selectors_of (from_user_id message) s = [].

(** "No empty field name in the specification". *)
Definition no_empty_key (selectors : Selectors) : Prop :=
  ~ In [] (dict_keys selectors).

Definition is_alpha (c : N) : bool :=
  ((65 <=? c) && (c <=? 90) || (97 <=? c) && (c <=? 122))%N.

Definition is_scheme_char (c : N) : bool :=
  (is_alpha c || (48 <=? c) && (c <=? 57)
   || (c =? 43) || (c =? 45) || (c =? 46))%N.

Fixpoint after_scheme_chars (s : str) : str :=
  match s with
  | c :: r => if is_scheme_char c then after_scheme_chars r else s
  | [] => []
  end.

(** "A scheme is present", read as RFC 3986 writes a scheme: a letter,
    then letters, digits, [+], [-] or [.], here followed by [://]. *)
Definition spec_has_scheme (s : str) : bool :=
  match s with
  | c :: r => is_alpha c && startswith (u "://") (after_scheme_chars r)
  | [] => false
  end.

(** The field names of a list of additions, each at its first use. *)
Fixpoint first_use (names : list str) : list str :=
  match names with
  | [] => []
  | n :: rest => n :: filter (λ x, x <> n) (first_use rest)
  end.

(** The dictionary after the assignments [adds], made in this order. *)
Definition assign_all {V} (adds : list (str * V)) (d : list (str * V))
  : list (str * V) :=
  fold_left (λ acc add, dict_set (fst add) (snd add) acc) adds d.

Section Additions.
Context {case : CaseOps} {aiogram : Aiogram}.

(** One addition of a simple selector: the turn with the field name and
    the turn with the selector. *)
Definition addition_turns (chat user : Z) (add : str * str)
  : list Message :=
  [mkMessage chat user (Some (fst add));
   mkMessage chat user (Some (snd add))].

(** The two turns are texts, none is a command or one of the keywords. *)
Definition valid_addition (chat user : Z) (add : str * str) : Prop :=
  fst add <> [] /\ plain (mkMessage chat user (Some (fst add)))
  /\ lower (fst add) <> u "готово" /\ lower (fst add) <> u "очистить"
  /\ snd add <> [] /\ plain (mkMessage chat user (Some (snd add)))
  /\ lower (strip (snd add)) <> u "атрибут".

(** What an addition stores: the trimmed name and the selector as
    [process_selector_value] keeps it. *)
Definition stored_entry (add : str * str) : str * SelectorInfo :=
  (strip (fst add), SelStr (lower (strip (snd add)))).

End Additions.

Section Rendering.
Context {case : CaseOps}.

(** The text [format_results] has in hand before its length check. *)
Definition rendering (results : Results) : str :=
  if dict_is_empty results then u "❌ Нет данных"
  else join nl (result_lines results).

(** How one value is shown: whole up to 100 characters, otherwise its
    first 97 characters and an ellipsis. *)
Inductive shown_as (item : str) : str -> Prop :=
| shown_whole : length item <= 100 -> shown_as item item
| shown_cut : 100 < length item -> shown_as item (take 97 item ++ u "...").

(** The lines of one field as the specification describes them, with the
    fields that matched nothing left out: a header with the name and the
    count, the first five values, the count of the others when there are
    more than five, and an empty line. *)
Inductive field_block : str * list str -> list str -> Prop :=
| block_nothing field_name : field_block (field_name, []) []
| block_lines field_name items samples :
    items <> [] ->
    length samples = Nat.min 5 (length items) ->
    (forall i item, i < 5 -> items !! i = Some item ->
       exists shown,
         shown_as item shown /\ length shown <= 100
         /\ samples !! i
            = Some (u "  " ++ str_of_nat (S i) ++ u ". " ++ shown)) ->
    field_block (field_name, items)
      ([header_line field_name (length items)]
       ++ samples
       ++ (if (5 <? length items)%nat then [more_line (length items - 5)]
           else [])
       ++ [[]]).

End Rendering.

Section FetchFailures.
Context {Document Element : Type} {web : Web Document Element}.

(** The ways a fetch fails: the request raises (a timeout, a network
    error, anything else), the status is not 2xx, or the body cannot be
    parsed. *)
Inductive FetchFailure (self : Parser) (url : option str) : Prop :=
| request_raises e :
    httpx_get url (timeout self) = inr e -> FetchFailure self url
| status_not_2xx response :
    httpx_get url (timeout self) = inl response ->
    ~ (200 <= status_code response <= 299)%Z ->
    FetchFailure self url
| parser_raises response e :
    httpx_get url (timeout self) = inl response ->
    BS (body response) = inr e ->
    FetchFailure self url.

End FetchFailures.


(** ** What an extraction yields *)

Section Extraction.
Context {Document Element : Type} {web : Web Document Element}.

(** The string value of an attribute; [''] when it is missing. *)
Definition attr_text (elem : Element) (a : str) : str :=
  match elem_get elem a with
  | Some (AttrStr v) => v
  | _ => []
  end.

(** The attribute of the element is a list ([class], [rel], ...). *)
Definition has_list_value (elem : Element) (a : str) : Prop :=
  exists l, elem_get elem a = Some (AttrList l).

(** The list [extract_by_selector] returns on a parsed page. *)
Definition selected (doc : Document) (selector : str) (attr : option str)
  : list str :=
  match select doc selector with
  | inl elements => fst (collect attr elements [])
  | inr _ => []
  end.

(** The call [extract_multiple] makes for a field, if it makes one. *)
Definition usable (info : SelectorInfo) : option (str * option str) :=
  match info with
  | SelStr css => Some (css, None)
  | SelDict selector attr =>
    if truthy selector then Some (default [] selector, Some attr) else None
  end.

(** The fields with their values, in the order of the selectors. *)
Definition extracted (doc : Document) (selectors : Selectors) : Results :=
  omap (λ entry,
          match usable (snd entry) with
          | Some (css, attr) => Some (fst entry, selected doc css attr)
          | None => None
          end) selectors.

End Extraction.


(** The selectors of the test at the end of [bs4_scraper.py], on the tags
    of [toy_page]. *)
Definition demo_selectors : Selectors :=
  [ (u "titles", SelStr (u "h1"));
    (u "links", SelDict (Some (u "a")) (u "href"));
    (u "broken", SelDict None (u "src"));
    (u "paragraphs", SelStr (u "p")) ].

Definition example_url : option str := Some (u "https://example.com").


(** ** Footprints and invariants of the router *)

(** The stores a handler can leave when it writes only the conversation
    and the selectors of its message. *)
Inductive own_update (m : Message) (s : Store) : Store -> Prop :=
| own_nothing : own_update m s s
| own_record r s' :
    own_update m s s' -> own_update m s (put_record (key_of m) r s')
| own_selectors d s' :
    own_update m s s' ->
    own_update m s (put_selectors (from_user_id m) d s').

(** The states a conversation is in after its user gave a url. *)
Definition needs_user (o : option ParseSteps) : bool :=
  match o with
  | None | Some WAITING_FOR_URL => false
  | Some _ => true
  end.

(** Every conversation past the url has an entry in [user_selectors]. *)
Definition users_known (s : Store) : Prop :=
  forall c v, needs_user (fsm_state (fsm_record (c, v) s)) = true ->
    is_Some (user_selectors s !! v).

Definition is_simple (entry : str * SelectorInfo) : Prop :=
  exists css, snd entry = SelStr css.

(** No conversation waits for an attribute name, and every stored
    selector is a plain string. *)
Definition simple_only (s : Store) : Prop :=
  (forall k, fsm_state (fsm_record k s) <> Some WAITING_FOR_SELECTOR_ATTR)
  /\ forall v d, user_selectors s !! v = Some d -> Forall is_simple d.


(** ** The replies of [finish_selectors] *)

Definition starting_text (url : option str) (selectors : Selectors) : str :=
  u "🚀 Начинаю парсинг..." ++ nl ++ nl ++ u "🌐 URL: " ++ str_of_opt url ++
  nl ++ u "🔧 Селекторы:" ++ nl ++ format_selectors selectors ++ nl ++ nl ++
  u "⏳ Пожалуйста, подождите...".

Definition no_data_text : str :=
  u "❌ Не удалось получить данные." ++ nl ++ u "Возможные причины:" ++
  nl ++ u "• Сайт заблокировал доступ" ++ nl ++ u "• Неверные селекторы" ++
  nl ++ u "• На странице нет элементов по вашим селекторам".

Definition done_text {case : CaseOps} (results : Results) : str :=
  u "✅ Парсинг завершен!" ++ nl ++ nl ++ format_results results.


(** A page whose second link has a list as [rel]. *)
Definition rel_page : list ToyElement :=
  [ mkElem (u "a") (u "x") [(u "rel", AttrStr (u " next "))];
    mkElem (u "a") (u "y")
      [(u "rel", AttrList [u "nofollow"; u "noopener"])];
    mkElem (u "a") (u "z") [(u "rel", AttrStr (u "prev"))] ].

(** A message without text. *)
Definition photo (chat user : Z) : Message := mkMessage chat user None.

(** The field name is given, the selector is awaited. *)
Definition value_store : Store :=
  fst (toy_run [turn 1 7 "links"] name_store).

(** A build on a url that answers 404, up to the review step. *)
Definition missing_store : Store :=
  fst (toy_run
         [turn 1 7 "/parse"; turn 1 7 "example.com/missing";
          turn 1 7 "headers"; turn 1 7 "h1"] empty_store).


(** The reply of [ask_for_next_selector] for the selectors at hand. *)
Definition review_text (current_selectors : Selectors) : str :=
  u "📋 Текущие селекторы:" ++ nl ++ format_selectors current_selectors ++
  nl ++ nl ++ u "Что дальше?" ++ nl ++
  u "• Введите название следующего поля" ++ nl ++
  u "• Или отправьте 'готово' для запуска парсинга" ++ nl ++
  u "• Или отправьте 'очистить' чтобы начать заново".

(** * Properties *)

(** ** Literals and string methods *)

Example u_decodes_cyrillic :
  u "готово" = [1075; 1086; 1090; 1086; 1074; 1086]%N.
Proof. reflexivity. Qed.

Example u_decodes_emoji : u "🗑️" = [128465; 65039]%N.
Proof. reflexivity. Qed.

Example strip_trims_both_ends : strip (u "  h1, h2 ") = u "h1, h2".
Proof. reflexivity. Qed.

Example str_of_nat_is_decimal : str_of_nat 4038 = u "4038".
Proof. reflexivity. Qed.

Lemma lstrip_head t c r : lstrip t = c :: r -> isspace c = false.
Proof.
  induction t as [|x t IH]; intros H; [done|]. cbn in H.
  destruct (isspace x) eqn:Hx; [auto|]. by injection H as <- _.
Qed.

Lemma lstrip_suffix t : exists pre, t = pre ++ lstrip t.
Proof.
  induction t as [|x t [pre IH]]; cbn; [by exists []|].
  destruct (isspace x); [|by exists []].
  exists (x :: pre). cbn. by rewrite <- IH.
Qed.

(** A trimmed text does not begin with white space. *)
Lemma strip_no_leading_space s c r : strip s = c :: r -> isspace c = false.
Proof.
  unfold strip, rstrip. intros H.
  destruct (lstrip s) as [|c0 r0] eqn:Hs; [done|].
  pose proof (lstrip_head s c0 r0 Hs) as Hc0.
  destruct (lstrip_suffix (rev (c0 :: r0))) as (pre & E).
  apply (f_equal (@rev N)) in E.
  rewrite rev_involutive, rev_app_distr, H in E.
  by injection E as <- _.
Qed.

(** ** The scraper *)

(** Unfolds the monad down to stores and traces. *)
Ltac run_monad :=
  unfold raise_for_status, lift, log, answer, emit, raise, try_except,
    attempt, get_store, mbind, mret, M_bind, M_ret in *;
  cbn.

Section ScraperProperties.
Context {Document Element : Type} {web : Web Document Element}.

Lemma fetch_page_returns self url s :
  exists log soup,
    fetch_page self url s
    = mkRes s (HttpGet url (timeout self) :: log) (inl soup)
    /\ Forall (λ ev, is_log ev = true) log.
Proof.
  unfold fetch_page. run_monad.
  destruct (httpx_get url (timeout self)) as [response|e]; cbn.
  - destruct ((200 <=? status_code response)%Z
              && (status_code response <=? 299)%Z); cbn.
    + destruct (BS (body response)) as [soup|e]; cbn.
      * eexists _, _. split; [reflexivity|]. repeat constructor.
      * destruct (exc_class e); cbn; eexists _, _;
          (split; [reflexivity|]); repeat constructor.
    + eexists _, _. split; [reflexivity|]. repeat constructor.
  - destruct (exc_class e); cbn; eexists _, _;
      (split; [reflexivity|]); repeat constructor.
Qed.

Lemma fetch_page_failure self url s :
  FetchFailure self url ->
  exists log,
    fetch_page self url s
    = mkRes s (HttpGet url (timeout self) :: log) (inl None).
Proof.
  intros Hf.
  unfold fetch_page. run_monad.
  destruct Hf as [e He|response Hr Hs|response e Hr Hb]; rewrite ?He, ?Hr; cbn.
  - destruct (exc_class e); cbn; eexists; reflexivity.
  - destruct ((200 <=? status_code response)%Z
              && (status_code response <=? 299)%Z) eqn:Hb; cbn.
    + exfalso. apply Hs. apply andb_prop in Hb as [H1 H2].
      apply Z.leb_le in H1, H2. lia.
    + eexists; reflexivity.
  - destruct ((200 <=? status_code response)%Z
              && (status_code response <=? 299)%Z); cbn.
    + rewrite Hb. cbn. destruct (exc_class e); cbn; eexists; reflexivity.
    + eexists; reflexivity.
Qed.

Lemma extract_by_selector_returns self soup selector attr s :
  exists log found,
    extract_by_selector self soup selector attr s = mkRes s log (inl found)
    /\ Forall (λ ev, is_log ev = true) log.
Proof.
  unfold extract_by_selector.
  destruct soup as [doc|]; run_monad.
  - destruct (select doc selector) as [elements|e]; run_monad.
    + destruct (collect attr elements []) as [results [e|]]; run_monad;
        eexists _, _; (split; [reflexivity|]); repeat constructor.
    + eexists _, _. split; [reflexivity|]. repeat constructor.
  - eexists _, _. split; [reflexivity|]. repeat constructor.
Qed.

Lemma extract_fields_returns self soup selectors : forall results s,
  exists log found,
    extract_fields self soup selectors results s = mkRes s log (inl found)
    /\ Forall (λ ev, is_log ev = true) log.
Proof.
  induction selectors as [|[field_name info] rest IH]; intros results s.
  - exists [], results. split; [reflexivity|constructor].
  - cbn [extract_fields]. destruct info as [css|selector attr].
    + destruct (extract_by_selector_returns self soup css None s)
        as (log1 & found1 & E1 & L1).
      destruct (IH (dict_set field_name found1 results) s)
        as (log2 & found2 & E2 & L2).
      run_monad. rewrite E1, E2.
      eexists _, _. split; [reflexivity|]. apply Forall_app; auto.
    + destruct (truthy selector).
      * destruct (extract_by_selector_returns self soup
                    (default [] selector) (Some attr) s)
          as (log1 & found1 & E1 & L1).
        destruct (IH (dict_set field_name found1 results) s)
          as (log2 & found2 & E2 & L2).
        run_monad. rewrite E1, E2.
        eexists _, _. split; [reflexivity|]. apply Forall_app; auto.
      * destruct (IH results s) as (log2 & found2 & E2 & L2).
        run_monad. rewrite E2.
        eexists _, _. split; [reflexivity|]. repeat constructor. exact L2.
Qed.

(** [main_parse] never raises, leaves the stores alone and loads the page
    exactly once. *)
Lemma main_parse_returns self url selectors s :
  exists log results,
    main_parse self url selectors s
    = mkRes s (HttpGet url (timeout self) :: log) (inl results)
    /\ Forall (λ ev, is_log ev = true) log.
Proof.
  unfold main_parse.
  destruct (fetch_page_returns self url s) as (log1 & soup & E1 & L1).
  destruct soup as [doc|].
  - unfold extract_multiple.
    destruct (extract_fields_returns self (Some doc) selectors [] s)
      as (log2 & found & E2 & L2).
    run_monad. rewrite E1, E2.
    eexists _, _. split; [reflexivity|]. apply Forall_app; auto.
  - run_monad. rewrite E1. cbn.
    eexists _, _. split; [reflexivity|].
    apply Forall_app; split; [exact L1|repeat constructor].
Qed.

(** C9.  Whatever makes the fetch fail (a status outside 2xx, a timeout, a
    network error or any other exception, in the request or in the
    parser), [fetch_page] raises nothing and returns [None], and
    [main_parse] then returns the empty dictionary, whatever the
    selectors. *)
Theorem fetch_failure_gives_no_document self url selectors s :
  FetchFailure self url ->
  (exists log, fetch_page self url s = mkRes s log (inl None))
  /\ (exists log, main_parse self url selectors s = mkRes s log (inl [])).
Proof.
  intros Hf.
  destruct (fetch_page_failure self url s Hf) as (log & E).
  split; [eauto|].
  unfold main_parse. run_monad. rewrite E. cbn. eauto.
Qed.

End ScraperProperties.

Lemma fetch_failure_gives_no_document_witness :
  @FetchFailure _ _ toy_web (mkParser 30) missing_url
  /\ (exists log,
        @fetch_page _ _ toy_web (mkParser 30) missing_url empty_store
        = mkRes empty_store log (inl None))
  /\ (exists log,
        @main_parse _ _ toy_web (mkParser 30) missing_url
          [(u "headers", SelStr (u "h1"))] empty_store
        = mkRes empty_store log (inl [])).
Proof.
  assert (Hf : @FetchFailure _ _ toy_web (mkParser 30) missing_url).
  { eapply status_not_2xx with (response := mkResponse 404 []).
    - reflexivity.
    - cbn. lia. }
  split; [exact Hf|].
  exact (@fetch_failure_gives_no_document _ _ toy_web (mkParser 30)
           missing_url [(u "headers", SelStr (u "h1"))] empty_store Hf).
Defined.

(** ** The two stores *)

Lemma fsm_record_put_eq k r s : fsm_record k (put_record k r s) = r.
Proof. unfold fsm_record, put_record. cbn. by rewrite lookup_insert_eq. Qed.

Lemma fsm_record_put_ne k k' r s :
  k <> k' -> fsm_record k' (put_record k r s) = fsm_record k' s.
Proof.
  intros Hne. unfold fsm_record, put_record. cbn.
  by rewrite lookup_insert_ne.
Qed.

Lemma put_record_twice k r1 r2 s :
  put_record k r2 (put_record k r1 s) = put_record k r2 s.
Proof. unfold put_record. cbn. by rewrite insert_insert_eq. Qed.

Lemma fsm_record_put_selectors k user_id d s :
  fsm_record k (put_selectors user_id d s) = fsm_record k s.
Proof. reflexivity. Qed.

Lemma user_selectors_put_record k r s :
  user_selectors (put_record k r s) = user_selectors s.
Proof. reflexivity. Qed.

Lemma user_selectors_put_selectors user_id d s :
  user_selectors (put_selectors user_id d s)
  = <[user_id := d]> (user_selectors s).
Proof. reflexivity. Qed.

Lemma selectors_of_put_record k r s user_id :
  selectors_of user_id (put_record k r s) = selectors_of user_id s.
Proof. reflexivity. Qed.

Lemma selectors_of_put_eq user_id d s :
  selectors_of user_id (put_selectors user_id d s) = d.
Proof.
  unfold selectors_of, put_selectors. cbn. by rewrite lookup_insert_eq.
Qed.

Lemma selectors_of_put_ne user_id user_id' d s :
  user_id <> user_id' ->
  selectors_of user_id' (put_selectors user_id d s)
  = selectors_of user_id' s.
Proof.
  intros Hne. unfold selectors_of, put_selectors. cbn.
  by rewrite lookup_insert_ne.
Qed.

Lemma selectors_of_lookup user_id d s :
  user_selectors s !! user_id = Some d -> selectors_of user_id s = d.
Proof. intros H. unfold selectors_of. by rewrite H. Qed.

Create Rewrite HintDb store.
#[local] Hint Rewrite fsm_record_put_eq put_record_twice
  fsm_record_put_selectors
  user_selectors_put_record user_selectors_put_selectors
  selectors_of_put_record selectors_of_put_eq : store.

(** ** The router *)

(** Walks down the router with the facts at hand. *)
Ltac route :=
  unfold dispatch, router, Command, in_state, state_of in *;
  cbn [find accepts callback];
  repeat match goal with
  | H : plain _ |- _ => destruct H as (? & ? & ?)
  | H : ?x = _ |- context [?x] => rewrite H
  end;
  cbn [state_is andb find accepts callback].

(** Runs the body of a handler on a symbolic store. *)
Ltac handle :=
  unfold text_of, field_name_of, get_data, update_data, set_state, clear,
    reset_selectors, store_selector in *;
  run_monad.

Section RouterProperties.
Context {case : CaseOps} {aiogram : Aiogram}.
Context {Document Element : Type} {web : Web Document Element}.

Lemma F_text_Some m t : text m = Some t -> t <> [] -> F_text m = true.
Proof. unfold F_text. intros ->. by destruct t. Qed.

Lemma dispatch_url s m :
  state_of m s = Some WAITING_FOR_URL -> F_text m = true -> plain m ->
  dispatch m s = process_url m s.
Proof. intros Hs Ht Hp. by route. Qed.

Lemma dispatch_name s m :
  state_of m s = Some WAITING_FOR_SELECTOR_NAME -> F_text m = true ->
  plain m ->
  dispatch m s = process_selector_name m s.
Proof. intros Hs Ht Hp. by route. Qed.

Lemma dispatch_value s m :
  state_of m s = Some WAITING_FOR_SELECTOR_VALUE -> F_text m = true ->
  plain m ->
  dispatch m s = process_selector_value m s.
Proof. intros Hs Ht Hp. by route. Qed.

Lemma dispatch_finish s m :
  state_of m s = Some CONFIRM_SELECTORS ->
  F_text_lower_eq (u "готово") m = true ->
  plain m ->
  dispatch m s = finish_selectors m s.
Proof. intros Hs Hd Hp. by route. Qed.

Lemma dispatch_clear s m :
  state_of m s = Some CONFIRM_SELECTORS ->
  F_text_lower_eq (u "готово") m = false ->
  F_text_lower_eq (u "очистить") m = true ->
  plain m ->
  dispatch m s = clear_selectors m s.
Proof. intros Hs Hd Hc Hp. by route. Qed.

Lemma dispatch_next s m :
  state_of m s = Some CONFIRM_SELECTORS ->
  F_text_lower_eq (u "готово") m = false ->
  F_text_lower_eq (u "очистить") m = false ->
  F_text m = true ->
  plain m ->
  dispatch m s = add_next_selector m s.
Proof. intros Hs Hd Hc Ht Hp. by route. Qed.

(** *** Completion *)

Lemma finish_empty s m :
  selectors_of (from_user_id m) s = [] ->
  finish_selectors m s
  = mkRes (put_record (key_of m)
             (mkFsm (Some WAITING_FOR_SELECTOR_NAME) (data_of m s)) s)
      [Answer (chat_id m) no_selectors_text] (inl tt).
Proof.
  intros He. unfold finish_selectors. handle. rewrite He. handle.
  reflexivity.
Qed.

Lemma logs_hold_no_run log :
  Forall (λ ev, is_log ev = true) log -> extraction_runs log = 0.
Proof.
  unfold extraction_runs. induction 1 as [|ev log Hev _ IH]; [reflexivity|].
  destruct ev; try discriminate Hev. cbn. exact IH.
Qed.

Lemma extraction_runs_app out1 out2 :
  extraction_runs (out1 ++ out2)
  = extraction_runs out1 + extraction_runs out2.
Proof. unfold extraction_runs. by rewrite filter_app, length_app. Qed.

Lemma finish_nonempty s m :
  selectors_of (from_user_id m) s <> [] ->
  exists log reply1 reply2,
    finish_selectors m s
    = mkRes (put_record (key_of m) fresh_record s)
        (Answer (chat_id m) reply1
         :: HttpGet (url (data_of m s)) 30
         :: log ++ [Answer (chat_id m) reply2])
        (inl tt)
    /\ Forall (λ ev, is_log ev = true) log.
Proof.
  intros Hne. unfold finish_selectors. handle.
  destruct (selectors_of (from_user_id m) s) as [|entry rest] eqn:Hsel;
    [done|].
  handle.
  destruct (main_parse_returns (mkParser 30) (url (data_of m s))
              (entry :: rest) (put_record (key_of m) fresh_record s))
    as (log & results & E & L).
  unfold data_of in E. rewrite E. cbn.
  destruct (dict_is_empty results); cbn; eexists log, _, _;
    (split; [reflexivity|exact L]).
Qed.

(** C8.  When the "done" keyword arrives in [CONFIRM_SELECTORS] and the
    user has no selector, the only effect is the re-prompt: the state goes
    back to [WAITING_FOR_SELECTOR_NAME], nothing is extracted, and the
    stored url (with the rest of the FSM data and the selector store) is
    the same before and after the turn. *)
Theorem done_with_empty_spec_reprompts s m :
  state_of m s = Some CONFIRM_SELECTORS ->
  F_text_lower_eq (u "готово") m = true ->
  plain m ->
  selectors_of (from_user_id m) s = [] ->
  res_val (dispatch m s) = inl tt
  /\ res_out (dispatch m s) = [Answer (chat_id m) no_selectors_text]
  /\ state_of m (res_store (dispatch m s)) = Some WAITING_FOR_SELECTOR_NAME
  /\ url (data_of m (res_store (dispatch m s))) = url (data_of m s)
  /\ data_of m (res_store (dispatch m s)) = data_of m s
  /\ user_selectors (res_store (dispatch m s)) = user_selectors s.
Proof.
  intros Hs Hd Hp He.
  rewrite (dispatch_finish s m Hs Hd Hp), (finish_empty s m He). cbn.
  unfold state_of, data_of. autorewrite with store. cbn. done.
Qed.

(** C2 (as the code has it).  When the "done" keyword arrives in
    [CONFIRM_SELECTORS] and the user has at least one selector, the turn
    raises nothing, loads the stored url exactly once, and leaves the
    conversation in the default state with empty FSM data (no url, no
    pending name, css or mode).  The selector store is not touched: the
    selectors stay until the next build clears them. *)
Theorem done_runs_one_extraction s m :
  state_of m s = Some CONFIRM_SELECTORS ->
  F_text_lower_eq (u "готово") m = true ->
  plain m ->
  selectors_of (from_user_id m) s <> [] ->
  res_val (dispatch m s) = inl tt
  /\ extraction_runs (res_out (dispatch m s)) = 1
  /\ In (HttpGet (url (data_of m s)) 30) (res_out (dispatch m s))
  /\ fsm_record (key_of m) (res_store (dispatch m s)) = fresh_record
  /\ user_selectors (res_store (dispatch m s)) = user_selectors s.
Proof.
  intros Hs Hd Hp Hne.
  rewrite (dispatch_finish s m Hs Hd Hp).
  destruct (finish_nonempty s m Hne) as (log & reply1 & reply2 & E & L).
  rewrite E. cbn [res_val res_out res_store]. autorewrite with store.
  repeat split; try reflexivity.
  - change (Answer (chat_id m) reply1
            :: HttpGet (url (data_of m s)) 30
            :: log ++ [Answer (chat_id m) reply2])
      with ([Answer (chat_id m) reply1; HttpGet (url (data_of m s)) 30]
            ++ log ++ [Answer (chat_id m) reply2]).
    rewrite !extraction_runs_app, (logs_hold_no_run log L). reflexivity.
  - right. left. reflexivity.
Qed.

(** *** The url step *)

Lemma process_url_eval s m t :
  text m = Some t ->
  exists s' reply,
    process_url m s = mkRes s' [Answer (chat_id m) reply] (inl tt)
    /\ fsm_record (key_of m) s'
       = mkFsm (Some WAITING_FOR_SELECTOR_NAME)
           (set_url
              (if startswith (u "http://") (strip t)
                  || startswith (u "https://") (strip t)
               then strip t else u "https://" ++ strip t)
              (data_of m s))
    /\ user_selectors s' = <[from_user_id m := []]> (user_selectors s)
    /\ (forall k, key_of m <> k -> fsm_record k s' = fsm_record k s).
Proof.
  intros Ht. unfold process_url. handle. rewrite Ht. handle.
  eexists _, _. split; [reflexivity|].
  autorewrite with store. cbn. unfold data_of.
  split; [|split; [reflexivity|]].
  - by destruct (startswith (u "http://") (strip t)
                 || startswith (u "https://") (strip t)).
  - intros k Hk. rewrite !fsm_record_put_ne by done.
    by rewrite fsm_record_put_selectors, fsm_record_put_ne.
Qed.

(** C6 (as the code has it).  In [WAITING_FOR_URL], a text turn that is
    not a command stores the trimmed text unchanged when it starts with
    the very characters [http://] or [https://], and stores it behind
    [https://] in every other case; the selectors of the user are emptied
    and the state becomes [WAITING_FOR_SELECTOR_NAME]. *)
Theorem url_turn_stores_normalized_url s m t :
  state_of m s = Some WAITING_FOR_URL ->
  text m = Some t -> t <> [] -> plain m ->
  res_val (dispatch m s) = inl tt
  /\ url (data_of m (res_store (dispatch m s)))
     = Some (if startswith (u "http://") (strip t)
                || startswith (u "https://") (strip t)
             then strip t else u "https://" ++ strip t)
  /\ selectors_of (from_user_id m) (res_store (dispatch m s)) = []
  /\ state_of m (res_store (dispatch m s)) = Some WAITING_FOR_SELECTOR_NAME.
Proof.
  intros Hs Ht Hne Hp.
  rewrite (dispatch_url s m Hs (F_text_Some m t Ht Hne) Hp).
  destruct (process_url_eval s m t Ht) as (s' & reply & E & Hr & Hu & _).
  rewrite E. cbn [res_val res_out res_store].
  unfold state_of, data_of, selectors_of. rewrite Hr, Hu. cbn.
  by rewrite lookup_insert_eq.
Qed.

(** *** Field names *)

Lemma name_turn_eval (handler : Message -> M unit) s m t :
  handler = process_selector_name \/ handler = add_next_selector ->
  text m = Some t ->
  exists reply,
    handler m s
    = mkRes (put_record (key_of m)
               (mkFsm (Some WAITING_FOR_SELECTOR_VALUE)
                  (set_current_selector (strip t) (data_of m s))) s)
        [Answer (chat_id m) reply] (inl tt).
Proof.
  intros [-> | ->] Ht.
  - unfold process_selector_name. handle. rewrite Ht. handle.
    autorewrite with store. eexists. reflexivity.
  - unfold add_next_selector. handle. rewrite Ht. handle.
    autorewrite with store. eexists. reflexivity.
Qed.

Lemma F_keyword_false m t keyword :
  text m = Some t -> lower t <> keyword ->
  F_text_lower_eq keyword m = false.
Proof.
  intros Ht Hne. unfold F_text_lower_eq, str_eqb. rewrite Ht.
  by apply bool_decide_eq_false.
Qed.

Lemma dispatch_name_turn s m t :
  text m = Some t -> t <> [] -> plain m ->
  (state_of m s = Some WAITING_FOR_SELECTOR_NAME
   \/ (state_of m s = Some CONFIRM_SELECTORS
       /\ lower t <> u "готово" /\ lower t <> u "очистить")) ->
  exists reply,
    dispatch m s
    = mkRes (put_record (key_of m)
               (mkFsm (Some WAITING_FOR_SELECTOR_VALUE)
                  (set_current_selector (strip t) (data_of m s))) s)
        [Answer (chat_id m) reply] (inl tt).
Proof.
  intros Ht Hne Hp [Hs | (Hs & Hd & Hc)].
  - rewrite (dispatch_name s m Hs (F_text_Some m t Ht Hne) Hp).
    apply name_turn_eval; auto.
  - rewrite (dispatch_next s m Hs (F_keyword_false m t _ Ht Hd)
               (F_keyword_false m t _ Ht Hc) (F_text_Some m t Ht Hne) Hp).
    apply name_turn_eval; auto.
Qed.

(** C7 (as the code has it).  A text turn that supplies a field name (in
    [WAITING_FOR_SELECTOR_NAME], or in [CONFIRM_SELECTORS] when it is not
    one of the two keywords) is never rejected: the trimmed text, empty
    or not, becomes the pending field name and the state becomes
    [WAITING_FOR_SELECTOR_VALUE]; the url and the selectors are as
    before. *)
Theorem field_name_turn_accepts_trimmed_text s m t :
  text m = Some t -> t <> [] -> plain m ->
  (state_of m s = Some WAITING_FOR_SELECTOR_NAME
   \/ (state_of m s = Some CONFIRM_SELECTORS
       /\ lower t <> u "готово" /\ lower t <> u "очистить")) ->
  res_val (dispatch m s) = inl tt
  /\ current_selector (data_of m (res_store (dispatch m s)))
     = Some (strip t)
  /\ state_of m (res_store (dispatch m s))
     = Some WAITING_FOR_SELECTOR_VALUE
  /\ url (data_of m (res_store (dispatch m s))) = url (data_of m s)
  /\ user_selectors (res_store (dispatch m s)) = user_selectors s.
Proof.
  intros Ht Hne Hp Hs.
  destruct (dispatch_name_turn s m t Ht Hne Hp Hs) as (reply & E).
  rewrite E. cbn [res_val res_out res_store].
  unfold state_of, data_of. autorewrite with store. cbn. done.
Qed.

(** *** Selector values *)

Lemma process_value_keyword s m t :
  text m = Some t ->
  lower (strip t) = u "атрибут" ->
  exists reply,
    process_selector_value m s
    = mkRes (put_record (key_of m)
               (mkFsm (state_of m s)
                  (set_selector_type (u "attr") (data_of m s))) s)
        [Answer (chat_id m) reply] (inl tt).
Proof.
  intros Ht Hk. unfold process_selector_value. handle. rewrite Ht. handle.
  rewrite Hk. unfold str_eqb. rewrite bool_decide_eq_true_2 by done.
  handle. eexists. reflexivity.
Qed.

Lemma process_value_simple s m t name d :
  text m = Some t ->
  lower (strip t) <> u "атрибут" ->
  current_selector (data_of m s) = Some name ->
  user_selectors s !! from_user_id m = Some d ->
  exists reply,
    process_selector_value m s
    = mkRes (put_record (key_of m)
               (mkFsm (Some CONFIRM_SELECTORS) (data_of m s))
               (put_selectors (from_user_id m)
                  (dict_set name (SelStr (lower (strip t))) d) s))
        [Answer (chat_id m) reply] (inl tt).
Proof.
  intros Ht Hk Hn Hd. unfold process_selector_value. handle.
  rewrite Ht. handle.
  unfold str_eqb. rewrite bool_decide_eq_false_2 by done.
  unfold data_of in Hn. rewrite Hn. handle. rewrite Hd.
  unfold ask_for_next_selector. handle.
  autorewrite with store. eexists. reflexivity.
Qed.

(** In [WAITING_FOR_SELECTOR_VALUE] every text turn goes to
    [process_selector_value], also after the keyword: no text turn leads
    to [WAITING_FOR_SELECTOR_ATTR]. *)
Lemma text_turn_never_awaits_attribute s m :
  state_of m s = Some WAITING_FOR_SELECTOR_VALUE ->
  F_text m = true -> plain m ->
  state_of m (res_store (dispatch m s)) <> Some WAITING_FOR_SELECTOR_ATTR.
Proof.
  intros Hs Ht Hp. rewrite (dispatch_value s m Hs Ht Hp).
  unfold F_text in Ht. destruct (text m) as [t|] eqn:Etext; [|done].
  destruct (decide (lower (strip t) = u "атрибут")) as [Hk|Hk].
  - destruct (process_value_keyword s m t Etext Hk) as (reply & ->).
    cbn. unfold state_of. autorewrite with store. cbn.
    fold (state_of m s). by rewrite Hs.
  - unfold process_selector_value. handle. rewrite Etext. handle.
    unfold str_eqb. rewrite bool_decide_eq_false_2 by done.
    destruct (current_selector (fsm_data (fsm_record (key_of m) s)));
      handle; [|by rewrite Hs].
    destruct (user_selectors s !! from_user_id m); handle;
      [|by rewrite Hs].
    unfold ask_for_next_selector. handle.
    unfold state_of. by autorewrite with store.
Qed.

Lemma process_attr_eval s m t name d :
  text m = Some t ->
  current_selector (data_of m s) = Some name ->
  user_selectors s !! from_user_id m = Some d ->
  exists reply,
    process_selector_attr m s
    = mkRes (put_record (key_of m)
               (mkFsm (Some CONFIRM_SELECTORS) (data_of m s))
               (put_selectors (from_user_id m)
                  (dict_set name
                     (SelDict (selector_value (data_of m s)) (strip t)) d)
                  s))
        [Answer (chat_id m) reply] (inl tt).
Proof.
  intros Ht Hn Hd. unfold process_selector_attr. handle.
  rewrite Ht. handle.
  unfold data_of in Hn. rewrite Hn. handle. rewrite Hd.
  unfold ask_for_next_selector. handle.
  autorewrite with store. eexists. reflexivity.
Qed.

End RouterProperties.

(** ** Formatting of the results *)

Section FormattingProperties.
Context {case : CaseOps}.

Lemma length_truncation_marker : length truncation_marker = 48.
Proof. reflexivity. Qed.

Lemma format_results_rendering results :
  format_results results
  = if (4000 <? length (rendering results))%nat
    then take 3990 (rendering results) ++ truncation_marker
    else rendering results.
Proof.
  unfold format_results, rendering.
  destruct results as [|entry rest]; cbn [dict_is_empty].
  - vm_compute. reflexivity.
  - reflexivity.
Qed.

(** C3 (as the code has it).  [format_results] returns at most 4038
    characters: a rendering of at most 4000 characters is returned as it
    is, and a longer one is cut to its first 3990 characters, followed by
    the truncation marker of 48 characters. *)
Theorem format_results_length results :
  length (format_results results) <= 4038
  /\ (4000 < length (rendering results) ->
      format_results results
      = take 3990 (rendering results) ++ truncation_marker)
  /\ (length (rendering results) <= 4000 ->
      format_results results = rendering results).
Proof.
  rewrite format_results_rendering.
  generalize (rendering results). intros text.
  destruct (Nat.ltb_spec 4000 (length text)) as [Hlen|Hlen].
  - rewrite length_app, length_take, length_truncation_marker.
    repeat split; lia.
  - repeat split; lia.
Qed.

Lemma clip_item_shown item : shown_as item (clip_item item).
Proof.
  unfold clip_item. destruct (100 <? length item)%nat eqn:Hlen.
  - apply Nat.ltb_lt in Hlen. by constructor.
  - apply Nat.ltb_ge in Hlen. by constructor.
Qed.

Lemma clip_item_length item : length (clip_item item) <= 100.
Proof.
  unfold clip_item. destruct (100 <? length item)%nat eqn:Hlen.
  - rewrite length_app, length_take.
    change (length (u "...")) with 3. lia.
  - by apply Nat.ltb_ge in Hlen.
Qed.

Lemma sample_lines_length items : forall i,
  length (sample_lines i items) = length items.
Proof. induction items as [|item rest IH]; intros i; cbn; [done|]. by rewrite IH. Qed.

Lemma sample_lines_lookup items : forall i j item,
  items !! j = Some item ->
  sample_lines i items !! j
  = Some (u "  " ++ str_of_nat (i + j) ++ u ". " ++ clip_item item).
Proof.
  induction items as [|x rest IH]; intros i j item Hj; [done|].
  destruct j as [|j]; cbn in *.
  - injection Hj as ->. by rewrite Nat.add_0_r.
  - replace (i + S j) with (S i + j) by lia. by apply IH.
Qed.

Lemma field_lines_block entry : field_block entry (field_lines entry).
Proof.
  destruct entry as [field_name items]. unfold field_lines.
  destruct items as [|item0 rest] eqn:Hitems; [constructor|].
  rewrite <- Hitems.
  apply block_lines.
  - by rewrite Hitems.
  - by rewrite sample_lines_length, length_take.
  - intros i item Hi Hitem.
    exists (clip_item item).
    split; [apply clip_item_shown|]. split; [apply clip_item_length|].
    apply (sample_lines_lookup (take 5 items) 1 i item).
    by rewrite lookup_take_lt.
Qed.

(** C5 (as the code has it).  For a non-empty result, the rendering is the
    title, an empty line, and then the block of each field in the order of
    the dictionary, where a field without values contributes no line at
    all and a field with values contributes its header (upper-cased name
    and count), at most five numbered samples of at most 100 characters,
    the exact count of the omitted values when there are more than five,
    and an empty line.  [format_results] returns this rendering whenever
    it has at most 4000 characters. *)
Theorem format_results_fields results :
  results <> [] ->
  exists blocks,
    Forall2 field_block results blocks
    /\ rendering results
       = join nl ([u "📊 РЕЗУЛЬТАТЫ ПАРСИНГА:"; []] ++ concat blocks)
    /\ (length (rendering results) <= 4000 ->
        format_results results = rendering results).
Proof.
  intros Hne. exists (map field_lines results).
  split; [|split].
  - clear Hne. induction results; constructor; auto using field_lines_block.
  - unfold rendering, result_lines. by destruct results.
  - apply format_results_length.
Qed.

End FormattingProperties.

(** ** The pending field name *)

Lemma pending_put k r s :
  pending_name_set s -> record_ok r -> pending_name_set (put_record k r s).
Proof.
  intros Hs Hr k'. destruct (decide (k = k')) as [->|Hne].
  - by rewrite fsm_record_put_eq.
  - by rewrite fsm_record_put_ne.
Qed.

Lemma pending_put_selectors user_id d s :
  pending_name_set s -> pending_name_set (put_selectors user_id d s).
Proof. intros Hs k. rewrite fsm_record_put_selectors. apply Hs. Qed.

Lemma pending_empty_store : pending_name_set empty_store.
Proof. intros k. unfold fsm_record. cbn. rewrite lookup_empty. by intros. Qed.

Lemma state_is_true st o : state_is st o = true -> o = Some st.
Proof. destruct o as [[]|], st; cbn; congruence. Qed.

Section PendingName.
Context {case : CaseOps} {aiogram : Aiogram}.
Context {Document Element : Type} {web : Web Document Element}.

(** Splits on what a handler looks at. *)
Ltac branches :=
  repeat match goal with
  | |- context [match ?x with _ => _ end] =>
    lazymatch x with
    | context [match _ with _ => _ end] => fail
    | _ => destruct x eqn:?
    end
  end.

(** The store of the result is the old one under some updates. *)
Ltac updates Hinv :=
  cbn [res_store res_val];
  repeat first
    [ exact Hinv
    | apply pending_put_selectors
    | apply pending_put ];
  unfold record_ok; cbn; autorewrite with store; cbn;
  try (intros; discriminate);
  try (intros _; apply Hinv; congruence).

Lemma finish_keeps_pending_name s m :
  pending_name_set s ->
  pending_name_set (res_store (finish_selectors m s))
  /\ res_val (finish_selectors m s) = inl tt.
Proof.
  intros Hinv.
  destruct (selectors_of (from_user_id m) s) as [|entry rest] eqn:Hsel.
  - rewrite (finish_empty s m Hsel). split; [|done]. updates Hinv.
  - destruct (finish_nonempty s m) as (log & r1 & r2 & E & _);
      [by rewrite Hsel|].
    rewrite E. split; [|done]. updates Hinv.
Qed.

(** No turn breaks [pending_name_set], and under it no handler leaves the
    declared types. *)
Lemma dispatch_keeps_pending_name s m :
  pending_name_set s ->
  pending_name_set (res_store (dispatch m s))
  /\ forall e, res_val (dispatch m s) = inr e -> exc_class e <> Untyped.
Proof.
  intros Hinv. pose proof (Hinv (key_of m)) as Hk. unfold record_ok in Hk.
  unfold dispatch, router, Command, in_state.
  cbn [find accepts callback].
  repeat match goal with
  | |- context [if ?c then Some _ else _] => destruct c eqn:?
  end;
  repeat match goal with
  | H : _ && _ = true |- _ => apply andb_prop in H as [? ?]
  | H : state_is _ _ = true |- _ => apply state_is_true in H
  end.
  all: cbn [callback].
  all: try (destruct (finish_keeps_pending_name s m Hinv) as [? E];
            split; [assumption|]; intros e He; rewrite E in He;
            discriminate He).
  all: unfold start_cmd, get_help, get_parse, process_url,
         process_selector_name, process_selector_value,
         process_selector_for_attr, process_selector_attr,
         clear_selectors, add_next_selector, quick_parse_command,
         show_examples, ask_for_next_selector;
       handle; branches; handle; branches; handle.
  all: split; [updates Hinv|].
  all: try exact Hk.
  all: try (intros _; congruence).
  all: try (intros _; apply Hk;
            match goal with H : fsm_state _ = Some _ |- _ => by rewrite H end).
  all: try (intros e He; discriminate He).
  all: intros e [= <-]; cbn; try discriminate.
  all: exfalso; apply Hk; [|reflexivity].
  all: match goal with H : fsm_state _ = Some _ |- _ => by rewrite H end.
Qed.

(** Whole runs keep the pending field names, in particular the runs that
    start from [empty_store] ([pending_empty_store]). *)
Lemma run_keeps_pending_name turns : forall s,
  pending_name_set s -> pending_name_set (fst (run turns s)).
Proof.
  induction turns as [|m rest IH]; intros s Hinv; [exact Hinv|].
  cbn [run].
  pose proof (dispatch_keeps_pending_name s m Hinv) as [Hnext _].
  destruct (dispatch m s) as [s1 out1 v1]. cbn in Hnext.
  specialize (IH s1 Hnext). by destruct (run rest s1).
Qed.

End PendingName.

(** ** Dictionaries and repeated field names *)

Section DictProperties.
Context {V : Type}.
Implicit Types (d : list (str * V)) (k : str) (v : V).

Lemma filter_all (P : str -> Prop) `{!forall x, Decision (P x)}
  (l : list str) :
  (forall x, P x) -> filter P l = l.
Proof.
  intros HP. induction l as [|x l IH]; [done|].
  by rewrite filter_cons_True, IH.
Qed.

Lemma str_eqb_true k k' : str_eqb k k' = true <-> k = k'.
Proof. unfold str_eqb. apply bool_decide_eq_true. Qed.

Lemma dict_keys_set k v d :
  dict_keys (dict_set k v d)
  = if decide (k ∈ dict_keys d) then dict_keys d else dict_keys d ++ [k].
Proof.
  unfold dict_keys.
  induction d as [|[k' v'] r IH]; cbn [dict_set map fst app].
  - rewrite decide_False; [done|]. apply not_elem_of_nil.
  - unfold str_eqb.
    destruct (bool_decide_reflect (k = k')) as [->|Hne]; cbn [map fst].
    + rewrite decide_True; [done|]. apply list_elem_of_here.
    + rewrite IH.
      destruct (decide (k ∈ map fst r)) as [Hin|Hin].
      * rewrite decide_True; [done|]. by apply list_elem_of_further.
      * rewrite decide_False; [done|].
        intros [->|H]%elem_of_cons; [by apply Hne|by apply Hin].
Qed.

Lemma dict_get_set_eq k v d : dict_get k (dict_set k v d) = Some v.
Proof.
  induction d as [|[k' v'] r IH]; cbn; unfold str_eqb.
  - by rewrite bool_decide_eq_true_2.
  - destruct (bool_decide_reflect (k = k')) as [->|Hne]; cbn; unfold str_eqb.
    + by rewrite bool_decide_eq_true_2.
    + by rewrite bool_decide_eq_false_2.
Qed.

Lemma dict_get_set_ne k k' v d :
  k <> k' -> dict_get k' (dict_set k v d) = dict_get k' d.
Proof.
  intros Hne. induction d as [|[k0 v0] r IH]; cbn; unfold str_eqb.
  - by rewrite bool_decide_eq_false_2.
  - destruct (bool_decide_reflect (k = k0)) as [->|Hne0]; cbn;
      unfold str_eqb.
    + by rewrite !bool_decide_eq_false_2.
    + destruct (bool_decide_reflect (k' = k0)); [done|exact IH].
Qed.

Lemma dict_get_app k (l1 l2 : list (str * V)) :
  dict_get k (l1 ++ l2)
  = match dict_get k l1 with
    | Some v => Some v
    | None => dict_get k l2
    end.
Proof.
  induction l1 as [|[k' v'] r IH]; cbn; [done|].
  by destruct (str_eqb k k').
Qed.

Lemma assign_all_keys adds : forall d,
  dict_keys (assign_all adds d)
  = dict_keys d
    ++ filter (λ x, x ∉ dict_keys d) (first_use (map fst adds)).
Proof.
  induction adds as [|[k v] rest IH]; intros d.
  - cbn. by rewrite app_nil_r.
  - change (assign_all ((k, v) :: rest) d)
      with (assign_all rest (dict_set k v d)).
    rewrite IH, dict_keys_set. cbn [map fst first_use].
    destruct (decide (k ∈ dict_keys d)) as [Hin|Hin].
    + rewrite filter_cons_False by (intros H; by apply H).
      f_equal. rewrite list_filter_filter.
      apply list_filter_iff. intros x. split; [|tauto].
      intros Hx. split; [done|]. intros ->. by apply Hx.
    + rewrite filter_cons_True by done.
      rewrite <- app_assoc. cbn [app]. do 2 f_equal.
      rewrite list_filter_filter.
      apply list_filter_iff. intros x.
      rewrite elem_of_app, list_elem_of_singleton. tauto.
Qed.

Lemma assign_all_get adds : forall d k,
  dict_get k (assign_all adds d)
  = match dict_get k (rev adds) with
    | Some v => Some v
    | None => dict_get k d
    end.
Proof.
  induction adds as [|[k0 v0] rest IH]; intros d k; [done|].
  change (assign_all ((k0, v0) :: rest) d)
    with (assign_all rest (dict_set k0 v0 d)).
  rewrite IH. cbn [rev]. rewrite dict_get_app. cbn [dict_get].
  destruct (dict_get k (rev rest)); [done|].
  unfold str_eqb. destruct (bool_decide_reflect (k = k0)) as [->|Hne].
  - apply dict_get_set_eq.
  - by apply dict_get_set_ne.
Qed.

End DictProperties.

Section AdditionProperties.
Context {case : CaseOps} {aiogram : Aiogram}.
Context {Document Element : Type} {web : Web Document Element}.

Lemma run_app turns1 : forall turns2 s,
  fst (run (turns1 ++ turns2) s) = fst (run turns2 (fst (run turns1 s))).
Proof.
  induction turns1 as [|m rest IH]; intros turns2 s; [done|].
  cbn [app run]. destruct (dispatch m s) as [s1 out1 v1].
  specialize (IH turns2 s1).
  destruct (run (rest ++ turns2) s1) as [s2 out2].
  destruct (run rest s1) as [s3 out3]. cbn in *.
  by destruct (run turns2 s3).
Qed.

Lemma one_addition chat user add s d :
  valid_addition chat user add ->
  (fsm_state (fsm_record (chat, user) s) = Some WAITING_FOR_SELECTOR_NAME
   \/ fsm_state (fsm_record (chat, user) s) = Some CONFIRM_SELECTORS) ->
  user_selectors s !! user = Some d ->
  fsm_state (fsm_record (chat, user)
               (fst (run (addition_turns chat user add) s)))
  = Some CONFIRM_SELECTORS
  /\ user_selectors (fst (run (addition_turns chat user add) s)) !! user
     = Some (dict_set (fst (stored_entry add)) (snd (stored_entry add)) d).
Proof.
  destruct add as [n v].
  intros (Hn & Hpn & Hdone & Hclear & Hv & Hpv & Hkey) Hs Hd.
  cbn [fst snd] in *. unfold addition_turns. cbn [fst snd run].
  set (m1 := mkMessage chat user (Some n)).
  set (m2 := mkMessage chat user (Some v)).
  destruct (dispatch_name_turn s m1 n eq_refl Hn Hpn) as (reply1 & E1).
  { unfold state_of. cbn. destruct Hs; auto. }
  rewrite E1.
  set (s1 := put_record (key_of m1) _ s).
  assert (Hs1 : state_of m2 s1 = Some WAITING_FOR_SELECTOR_VALUE).
  { unfold state_of, s1. cbn. by autorewrite with store. }
  rewrite (dispatch_value s1 m2 Hs1 (F_text_Some m2 v eq_refl Hv) Hpv).
  destruct (process_value_simple s1 m2 v (strip n) d eq_refl Hkey)
    as (reply2 & E2).
  { unfold data_of, s1. cbn. by autorewrite with store. }
  { exact Hd. }
  rewrite E2. cbn. autorewrite with store. cbn.
  split; [reflexivity|]. by rewrite lookup_insert_eq.
Qed.

Lemma additions_run chat user adds : forall s d,
  Forall (valid_addition chat user) adds ->
  (fsm_state (fsm_record (chat, user) s) = Some WAITING_FOR_SELECTOR_NAME
   \/ fsm_state (fsm_record (chat, user) s) = Some CONFIRM_SELECTORS) ->
  user_selectors s !! user = Some d ->
  selectors_of user
    (fst (run (concat (map (addition_turns chat user) adds)) s))
  = assign_all (map stored_entry adds) d.
Proof.
  induction adds as [|add rest IH]; intros s d Hv Hs Hd.
  - cbn. by apply selectors_of_lookup.
  - apply Forall_cons in Hv as [Hadd Hrest].
    cbn [map concat]. rewrite run_app.
    destruct (one_addition chat user add s d Hadd Hs Hd) as [Hs' Hd'].
    rewrite (IH _ _ Hrest (or_intror Hs') Hd'). reflexivity.
Qed.

(** C10.  When simple selectors are added one after the other to a fresh
    specification, a field name used more than once has one entry: the
    field names stand in the order of their first use, and each maps to
    the selector of its last addition. *)
Theorem repeated_field_name_keeps_place chat user adds s :
  Forall (valid_addition chat user) adds ->
  (fsm_state (fsm_record (chat, user) s) = Some WAITING_FOR_SELECTOR_NAME
   \/ fsm_state (fsm_record (chat, user) s) = Some CONFIRM_SELECTORS) ->
  user_selectors s !! user = Some [] ->
  dict_keys
    (selectors_of user
       (fst (run (concat (map (addition_turns chat user) adds)) s)))
  = first_use (map (λ add, strip (fst add)) adds)
  /\ forall name,
       dict_get name
         (selectors_of user
            (fst (run (concat (map (addition_turns chat user) adds)) s)))
       = dict_get name (rev (map stored_entry adds)).
Proof.
  intros Hv Hs Hd. rewrite (additions_run chat user adds s [] Hv Hs Hd).
  split.
  - rewrite assign_all_keys. cbn [dict_keys map app].
    rewrite map_map. cbn [stored_entry fst].
    apply filter_all. intros x. apply not_elem_of_nil.
  - intros name. rewrite assign_all_get.
    by destruct (dict_get name (rev (map stored_entry adds))).
Qed.

End AdditionProperties.

(** ** Runs on given turns *)

Ltac compute_plain := unfold plain; vm_compute; repeat split; reflexivity.

Lemma done_with_empty_spec_reprompts_witness :
  state_of (turn 1 7 "готово") shared_store = Some CONFIRM_SELECTORS
  /\ selectors_of 7 shared_store = []
  /\ res_out (toy_dispatch (turn 1 7 "готово") shared_store)
     = [Answer 1 no_selectors_text]
  /\ state_of (turn 1 7 "готово")
       (res_store (toy_dispatch (turn 1 7 "готово") shared_store))
     = Some WAITING_FOR_SELECTOR_NAME
  /\ url (data_of (turn 1 7 "готово")
            (res_store (toy_dispatch (turn 1 7 "готово") shared_store)))
     = url (data_of (turn 1 7 "готово") shared_store).
Proof.
  assert (H1 : state_of (turn 1 7 "готово") shared_store
               = Some CONFIRM_SELECTORS) by (vm_compute; reflexivity).
  assert (H2 : @F_text_lower_eq basic_case (u "готово") (turn 1 7 "готово")
               = true) by (vm_compute; reflexivity).
  assert (H3 : @plain slash_command (turn 1 7 "готово")) by compute_plain.
  assert (H4 : selectors_of (from_user_id (turn 1 7 "готово")) shared_store
               = []) by (vm_compute; reflexivity).
  destruct (@done_with_empty_spec_reprompts basic_case slash_command _ _
              toy_web shared_store (turn 1 7 "готово") H1 H2 H3 H4)
    as (_ & Hout & Hstate & Hurl & _).
  repeat split; assumption.
Defined.

Lemma done_runs_one_extraction_witness :
  state_of (turn 1 7 "Готово") review_store = Some CONFIRM_SELECTORS
  /\ selectors_of 7 review_store <> []
  /\ extraction_runs (res_out (toy_dispatch (turn 1 7 "Готово") review_store))
     = 1
  /\ fsm_record (1, 7)%Z
       (res_store (toy_dispatch (turn 1 7 "Готово") review_store))
     = fresh_record
  /\ user_selectors
       (res_store (toy_dispatch (turn 1 7 "Готово") review_store))
     = user_selectors review_store.
Proof.
  assert (H1 : state_of (turn 1 7 "Готово") review_store
               = Some CONFIRM_SELECTORS) by (vm_compute; reflexivity).
  assert (H2 : @F_text_lower_eq basic_case (u "готово") (turn 1 7 "Готово")
               = true) by (vm_compute; reflexivity).
  assert (H3 : @plain slash_command (turn 1 7 "Готово")) by compute_plain.
  assert (H4 : selectors_of (from_user_id (turn 1 7 "Готово")) review_store
               <> []) by (vm_compute; discriminate).
  destruct (@done_runs_one_extraction basic_case slash_command _ _
              toy_web review_store (turn 1 7 "Готово") H1 H2 H3 H4)
    as (_ & Hruns & _ & Hrec & Hsel).
  repeat split; assumption.
Defined.

(** C2, as the specification states it, fails: after "done" with one
    selector the session is not reset, the selector is still stored. *)
Lemma done_leaves_the_selectors :
  ~ session_reset (turn 1 7 "готово")
      (res_store (toy_dispatch (turn 1 7 "готово") review_store)).
Proof. intros [_ H]. vm_compute in H. discriminate H. Qed.

Lemma url_turn_stores_normalized_url_witness :
  url (data_of (turn 1 7 " example.com ")
         (res_store
            (toy_dispatch (turn 1 7 " example.com ")
               (fst (toy_run [turn 1 7 "/parse"] empty_store)))))
  = Some (u "https://example.com")
  /\ selectors_of 7
       (res_store
          (toy_dispatch (turn 1 7 " example.com ")
             (fst (toy_run [turn 1 7 "/parse"] empty_store))))
     = [].
Proof.
  assert (H1 : state_of (turn 1 7 " example.com ")
                 (fst (toy_run [turn 1 7 "/parse"] empty_store))
               = Some WAITING_FOR_URL) by (vm_compute; reflexivity).
  assert (H2 : u " example.com " <> []) by (vm_compute; discriminate).
  assert (H3 : @plain slash_command (turn 1 7 " example.com "))
    by compute_plain.
  destruct (@url_turn_stores_normalized_url basic_case slash_command _ _
              toy_web _ (turn 1 7 " example.com ") _ H1 eq_refl H2 H3)
    as (_ & Hurl & Hsel & _).
  split; [|exact Hsel].
  etransitivity; [exact Hurl|]. vm_compute. reflexivity.
Defined.

(** C6, as the specification states it, fails: [ftp://example.com] has a
    scheme, and the stored url is not the trimmed text. *)
Lemma url_with_other_scheme_is_prefixed :
  spec_has_scheme (strip (u "ftp://example.com")) = true
  /\ url (data_of (turn 1 7 "ftp://example.com")
            (res_store
               (toy_dispatch (turn 1 7 "ftp://example.com")
                  (fst (toy_run [turn 1 7 "/parse"] empty_store)))))
     <> Some (strip (u "ftp://example.com"))
  /\ url (data_of (turn 1 7 "ftp://example.com")
            (res_store
               (toy_dispatch (turn 1 7 "ftp://example.com")
                  (fst (toy_run [turn 1 7 "/parse"] empty_store)))))
     = Some (u "https://ftp://example.com").
Proof.
  split; [vm_compute; reflexivity|].
  split; [vm_compute; discriminate|vm_compute; reflexivity].
Qed.

Lemma field_name_turn_accepts_trimmed_text_witness :
  state_of (turn 1 7 " ") name_store = Some WAITING_FOR_SELECTOR_NAME
  /\ current_selector
       (data_of (turn 1 7 " ")
          (res_store (toy_dispatch (turn 1 7 " ") name_store)))
     = Some []
  /\ state_of (turn 1 7 " ")
       (res_store (toy_dispatch (turn 1 7 " ") name_store))
     = Some WAITING_FOR_SELECTOR_VALUE.
Proof.
  assert (H1 : state_of (turn 1 7 " ") name_store
               = Some WAITING_FOR_SELECTOR_NAME)
    by (vm_compute; reflexivity).
  assert (H2 : u " " <> []) by (vm_compute; discriminate).
  assert (H3 : @plain slash_command (turn 1 7 " ")) by compute_plain.
  destruct (@field_name_turn_accepts_trimmed_text basic_case slash_command
              _ _ toy_web name_store (turn 1 7 " ") _ eq_refl H2 H3
              (or_introl H1))
    as (_ & Hname & Hstate & _).
  split; [exact H1|]. split; [|exact Hstate].
  etransitivity; [exact Hname|]. vm_compute. reflexivity.
Defined.

(** C7, as the specification states it, fails: a field name of white
    space is accepted, and the selector given next is stored under the
    empty string. *)
Lemma blank_field_name_is_stored :
  ~ no_empty_key (selectors_of 7 blank_name_store).
Proof. intros H. apply H. vm_compute. left. reflexivity. Qed.

(** C1 at [links], [атрибут], [a]: the state never becomes
    [WAITING_FOR_SELECTOR_ATTR]; the css is stored as a simple selector,
    no pending css is kept, and the conversation is in
    [CONFIRM_SELECTORS], where [href] would be the next field name. *)
Lemma attribute_keyword_then_css :
  state_of (turn 1 7 "a")
    (fst (toy_run [turn 1 7 "links"; turn 1 7 "атрибут"] name_store))
  = Some WAITING_FOR_SELECTOR_VALUE
  /\ state_of (turn 1 7 "href") attribute_store = Some CONFIRM_SELECTORS
  /\ selector_value (data_of (turn 1 7 "href") attribute_store) = None
  /\ selectors_of 7 attribute_store = [(u "links", SelStr (u "a"))]
  /\ selectors_of 7 (fst (toy_run [turn 1 7 "href"] attribute_store))
     = [(u "links", SelStr (u "a"))]
  /\ current_selector
       (data_of (turn 1 7 "href")
          (fst (toy_run [turn 1 7 "href"] attribute_store)))
     = Some (u "href").
Proof. repeat split; vm_compute; reflexivity. Qed.

(** C4 at the selector [DIV.Title]: what is stored is [div.title]. *)
Lemma selector_is_stored_in_lower_case :
  selectors_of 7 capitals_store = [(u "titles", SelStr (u "div.title"))]
  /\ selectors_of 7 capitals_store
     <> [(u "titles", SelStr (strip (u "DIV.Title")))].
Proof. split; [vm_compute; reflexivity|vm_compute; discriminate]. Qed.

Lemma format_results_length_witness :
  4000 < length (@rendering basic_case long_results)
  /\ length (@format_results basic_case long_results) <= 4038
  /\ @format_results basic_case long_results
     = take 3990 (@rendering basic_case long_results) ++ truncation_marker.
Proof.
  assert (H : 4000 < length (@rendering basic_case long_results)).
  { apply Nat.ltb_lt. vm_compute. reflexivity. }
  destruct (@format_results_length basic_case long_results)
    as (Hlen & Hcut & _).
  split; [exact H|]. split; [exact Hlen|exact (Hcut H)].
Defined.

(** C3, as the specification states it, fails: the text returned for
    [long_results] has more than 4000 characters. *)
Lemma format_results_exceeds_4000 :
  ~ length (@format_results basic_case long_results) <= 4000.
Proof.
  apply Nat.lt_nge. apply Nat.ltb_lt. vm_compute. reflexivity.
Qed.

Lemma format_results_fields_witness :
  exists blocks,
    Forall2 (@field_block basic_case)
      [(u "links", [u "/x"]); (u "empty", [])] blocks
    /\ @rendering basic_case [(u "links", [u "/x"]); (u "empty", [])]
       = join nl ([u "📊 РЕЗУЛЬТАТЫ ПАРСИНГА:"; []] ++ concat blocks)
    /\ (length (@rendering basic_case
                  [(u "links", [u "/x"]); (u "empty", [])]) <= 4000 ->
        @format_results basic_case [(u "links", [u "/x"]); (u "empty", [])]
        = @rendering basic_case [(u "links", [u "/x"]); (u "empty", [])]).
Proof.
  apply (@format_results_fields basic_case
           [(u "links", [u "/x"]); (u "empty", [])]).
  discriminate.
Defined.

(** C5, as the specification states it, fails: a field whose list of
    values is empty gets no header line, the result being non-empty. *)
Lemma empty_field_has_no_header :
  @format_results basic_case [(u "a", [])]
  = u "📊 РЕЗУЛЬТАТЫ ПАРСИНГА:" ++ nl
  /\ ~ In (@header_line basic_case (u "a") 0)
         (@result_lines basic_case [(u "a", [])]).
Proof.
  split; [vm_compute; reflexivity|].
  vm_compute. intros [H|[H|[]]]; discriminate H.
Qed.

Lemma repeated_field_name_keeps_place_witness :
  dict_keys
    (selectors_of 7
       (fst (toy_run
               (concat (map (@addition_turns 1 7)
                          [(u "price", u ".a"); (u "title", u "h1");
                           (u "price", u ".B")]))
               name_store)))
  = [u "price"; u "title"]
  /\ dict_get (u "price")
       (selectors_of 7
          (fst (toy_run
                  (concat (map (@addition_turns 1 7)
                             [(u "price", u ".a"); (u "title", u "h1");
                              (u "price", u ".B")]))
                  name_store)))
     = Some (SelStr (u ".b")).
Proof.
  assert (Hv : Forall (@valid_addition basic_case slash_command 1 7)
                 [(u "price", u ".a"); (u "title", u "h1");
                  (u "price", u ".B")]).
  { repeat constructor; try (vm_compute; congruence). }
  assert (Hs : fsm_state (fsm_record (1, 7)%Z name_store)
               = Some WAITING_FOR_SELECTOR_NAME)
    by (vm_compute; reflexivity).
  assert (Hd : user_selectors name_store !! 7%Z = Some [])
    by (vm_compute; reflexivity).
  destruct (@repeated_field_name_keeps_place basic_case slash_command _ _
              toy_web 1 7 _ name_store Hv (or_introl Hs) Hd)
    as (Hkeys & Hget).
  split.
  - etransitivity; [exact Hkeys|]. vm_compute. reflexivity.
  - etransitivity; [exact (Hget (u "price"))|]. vm_compute. reflexivity.
Defined.

(** * Further properties *)

(** ** What the scraper returns *)

Section ExtractionProperties.
Context {Document Element : Type} {web : Web Document Element}.

Lemma fetch_page_loaded self url s doc :
  res_val (fetch_page self url s) = inl (Some doc)
  <-> exists response,
        httpx_get url (timeout self) = inl response
        /\ (200 <= status_code response <= 299)%Z
        /\ BS (body response) = inl doc.
Proof.
  unfold fetch_page. run_monad.
  destruct (httpx_get url (timeout self)) as [response|e]; cbn.
  - destruct ((200 <=? status_code response)%Z
              && (status_code response <=? 299)%Z) eqn:Hst; cbn.
    + apply andb_prop in Hst as [H1 H2]. apply Z.leb_le in H1, H2.
      destruct (BS (body response)) as [soup|e] eqn:Hbs; cbn.
      * split.
        -- intros [= ->]. exists response. by rewrite Hbs.
        -- intros (r & [= <-] & _ & Hdoc). rewrite Hbs in Hdoc.
           by injection Hdoc as ->.
      * split.
        -- destruct (exc_class e); cbn; discriminate.
        -- intros (r & [= <-] & _ & Hdoc). by rewrite Hbs in Hdoc.
    + split; [discriminate|].
      intros (r & [= <-] & Hr & _).
      apply andb_false_iff in Hst as [H|H]; apply Z.leb_gt in H; lia.
  - split.
    + destruct (exc_class e); cbn; discriminate.
    + intros (r & Hr & _). discriminate Hr.
Qed.

(** [fetch_page] returns a document exactly when the request returns a
    response with a 2xx status whose body the parser accepts, and the
    document is the parsed body. *)
Theorem fetch_page_document self url s doc :
  res_val (fetch_page self url s) = inl (Some doc)
  <-> exists response,
        httpx_get url (timeout self) = inl response
        /\ (200 <= status_code response <= 299)%Z
        /\ BS (body response) = inl doc.
Proof. apply fetch_page_loaded. Qed.

Lemma collect_texts attr elements : forall acc,
  truthy attr = false ->
  collect attr elements acc
  = (acc ++ filter (λ t, t <> []) (map get_text elements), None).
Proof.
  induction elements as [|elem rest IH]; intros acc Ha; cbn [collect].
  - by rewrite app_nil_r.
  - rewrite Ha, IH by done. cbn [map].
    destruct (get_text elem) as [|c t] eqn:Ht; cbn [truthy].
    + by rewrite filter_cons_False by (intros H; by apply H).
    + rewrite filter_cons_True by done. by rewrite <- app_assoc.
Qed.

Lemma attr_text_str elem a v :
  elem_get elem a = Some (AttrStr v) -> attr_text elem a = v.
Proof. unfold attr_text. by intros ->. Qed.

Lemma attr_text_missing elem a :
  elem_get elem a = None -> attr_text elem a = [].
Proof. unfold attr_text. by intros ->. Qed.

Lemma collect_attributes a elements : forall acc,
  a <> [] ->
  Forall (λ elem, ~ has_list_value elem a) elements ->
  collect (Some a) elements acc
  = (acc ++ filter (λ t, t <> [])
              (map (λ elem, strip (attr_text elem a)) elements), None).
Proof.
  induction elements as [|elem rest IH]; intros acc Ha Hall;
    cbn [collect].
  - by rewrite app_nil_r.
  - apply Forall_cons in Hall as [Helem Hrest].
    assert (Ht : truthy (Some a) = true) by (by destruct a).
    rewrite Ht. cbn [default id map].
    destruct (elem_get elem a) as [[v|l]|] eqn:Hget; cbn [default id].
    + rewrite IH, (attr_text_str _ _ _ Hget) by done.
      destruct (strip v) as [|c t] eqn:Hv; cbn [truthy].
      * by rewrite filter_cons_False by (intros H; by apply H).
      * rewrite filter_cons_True by done. by rewrite <- app_assoc.
    + exfalso. apply Helem. by exists l.
    + rewrite IH, (attr_text_missing _ _ Hget) by done.
      change (strip []) with (@nil N). cbn [truthy].
      by rewrite filter_cons_False by (intros H; by apply H).
Qed.

Lemma collect_stops_at_list a pre elem post : forall acc,
  a <> [] ->
  Forall (λ e, ~ has_list_value e a) pre ->
  has_list_value elem a ->
  fst (collect (Some a) (pre ++ elem :: post) acc)
  = acc ++ filter (λ t, t <> [])
             (map (λ e, strip (attr_text e a)) pre)
  /\ is_Some (snd (collect (Some a) (pre ++ elem :: post) acc)).
Proof.
  assert (Ht : a <> [] -> truthy (Some a) = true) by (by destruct a).
  induction pre as [|e pre IH]; intros acc Ha Hall [l Hl];
    cbn [app collect].
  - rewrite Ht by done. cbn [default id]. rewrite Hl. cbn.
    by rewrite app_nil_r.
  - apply Forall_cons in Hall as [He Hpre].
    rewrite Ht by done. cbn [default id map].
    destruct (elem_get e a) as [[v|l']|] eqn:Hget; cbn [default id].
    + destruct (IH (if truthy (Some (strip v))
                    then acc ++ [strip v] else acc) Ha Hpre
                  (ex_intro _ l Hl)) as [E1 E2].
      split; [|exact E2]. rewrite E1, (attr_text_str _ _ _ Hget).
      destruct (strip v) as [|c t] eqn:Hv; cbn [truthy].
      * by rewrite filter_cons_False by (intros H; by apply H).
      * rewrite filter_cons_True by done. by rewrite <- app_assoc.
    + exfalso. apply He. by exists l'.
    + change (strip []) with (@nil N). cbn [truthy].
      destruct (IH acc Ha Hpre (ex_intro _ l Hl)) as [E1 E2].
      split; [|exact E2]. rewrite E1, (attr_text_missing _ _ Hget).
      change (strip []) with (@nil N).
      by rewrite filter_cons_False by (intros H; by apply H).
Qed.

Lemma collect_no_empty attr elements : forall acc,
  Forall (λ t, t <> []) acc ->
  Forall (λ t, t <> []) (fst (collect attr elements acc))
  /\ length (fst (collect attr elements acc))
     <= length acc + length elements.
Proof.
  induction elements as [|elem rest IH]; intros acc Hacc; cbn [collect].
  - cbn. split; [done|lia].
  - assert (Hpush : forall v,
      Forall (λ t, t <> [])
        (if truthy (Some v) then acc ++ [v] else acc)
      /\ length (if truthy (Some v) then acc ++ [v] else acc)
         <= S (length acc)).
    { intros [|c t]; cbn [truthy]; [split; [done|lia]|].
      rewrite length_app. cbn. split; [|lia].
      apply Forall_app. split; [done|]. by constructor. }
    destruct (truthy attr).
    + destruct (default (AttrStr []) (elem_get elem (default [] attr)))
        as [v|l].
      * destruct (Hpush (strip v)) as [H1 H2].
        destruct (IH _ H1) as [H3 H4]. split; [done|]. cbn [length]. lia.
      * cbn [fst length]. split; [done|lia].
    + destruct (Hpush (get_text elem)) as [H1 H2].
      destruct (IH _ H1) as [H3 H4]. split; [done|]. cbn [length]. lia.
Qed.

Lemma extract_by_selector_selected self doc selector attr s :
  exists log,
    extract_by_selector self (Some doc) selector attr s
    = mkRes s log (inl (selected doc selector attr))
    /\ Forall (λ ev, is_log ev = true) log.
Proof.
  unfold extract_by_selector, selected.
  destruct (select doc selector) as [elements|e]; run_monad.
  - destruct (collect attr elements []) as [results [e|]]; run_monad;
      eexists; (split; [reflexivity|]); repeat constructor.
  - eexists. split; [reflexivity|]. repeat constructor.
Qed.

(** Without an attribute, [extract_by_selector] returns the texts of the
    matched elements in their order, the empty ones left out. *)
Theorem extract_by_selector_texts self doc selector attr elements s :
  select doc selector = inl elements ->
  truthy attr = false ->
  res_val (extract_by_selector self (Some doc) selector attr s)
  = inl (filter (λ t, t <> []) (map get_text elements)).
Proof.
  intros Hsel Ha.
  destruct (extract_by_selector_selected self doc selector attr s)
    as (log & -> & _).
  cbn. unfold selected. rewrite Hsel, collect_texts by done. reflexivity.
Qed.

(** With an attribute that is a string (or missing) on every matched
    element, [extract_by_selector] returns the trimmed values in the
    order of the elements, the empty and the missing ones left out. *)
Theorem extract_by_selector_attributes self doc selector a elements s :
  select doc selector = inl elements ->
  a <> [] ->
  Forall (λ elem, ~ has_list_value elem a) elements ->
  res_val (extract_by_selector self (Some doc) selector (Some a) s)
  = inl (filter (λ t, t <> [])
           (map (λ elem, strip (attr_text elem a)) elements)).
Proof.
  intros Hsel Ha Hall.
  destruct (extract_by_selector_selected self doc selector (Some a) s)
    as (log & -> & _).
  cbn. unfold selected. rewrite Hsel, collect_attributes by done.
  reflexivity.
Qed.

(** At the first matched element whose attribute is a list, the loop of
    [extract_by_selector] ends with an [AttributeError] that is caught:
    the values of the elements before it are returned, the elements
    after it are not looked at, and nothing is raised. *)
Theorem extract_by_selector_list_attribute
  self doc selector a pre elem post s :
  select doc selector = inl (pre ++ elem :: post) ->
  a <> [] ->
  Forall (λ e, ~ has_list_value e a) pre ->
  has_list_value elem a ->
  res_val (extract_by_selector self (Some doc) selector (Some a) s)
  = inl (filter (λ t, t <> [])
           (map (λ e, strip (attr_text e a)) pre))
  /\ In (Log ERROR (LogSelectorError selector))
       (res_out (extract_by_selector self (Some doc) selector (Some a) s)).
Proof.
  intros Hsel Ha Hpre Helem.
  destruct (collect_stops_at_list a pre elem post [] Ha Hpre Helem)
    as [E1 [e E2]].
  unfold extract_by_selector. rewrite Hsel. run_monad.
  destruct (collect (Some a) (pre ++ elem :: post) []) as [results o].
  cbn in E1, E2. subst o results. cbn. split; [reflexivity|].
  right. left. reflexivity.
Qed.

(** Whatever the page, the selector and the attribute,
    [extract_by_selector] raises nothing, changes no store, only logs,
    and returns non-empty strings, at most one per matched element. *)
Theorem extract_by_selector_safe self soup selector attr s :
  exists log found,
    extract_by_selector self soup selector attr s = mkRes s log (inl found)
    /\ Forall (λ ev, is_log ev = true) log
    /\ Forall (λ t, t <> []) found
    /\ (soup = None -> found = [])
    /\ (forall doc e, soup = Some doc -> select doc selector = inr e ->
        found = [])
    /\ (forall doc elements, soup = Some doc ->
        select doc selector = inl elements ->
        length found <= length elements).
Proof.
  destruct soup as [doc|].
  - destruct (extract_by_selector_selected self doc selector attr s)
      as (log & E & L).
    exists log, (selected doc selector attr).
    split; [exact E|]. split; [exact L|].
    unfold selected.
    destruct (select doc selector) as [elements|e] eqn:Hsel.
    + destruct (collect_no_empty attr elements []
                  (Forall_nil_2 (λ t : str, t <> []))) as [H1 H2].
      split; [exact H1|]. split; [discriminate|]. split.
      * intros doc' e [= <-] He. rewrite Hsel in He. discriminate He.
      * intros doc' elements' [= <-] He. rewrite Hsel in He.
        injection He as <-. exact H2.
    + split; [constructor|]. split; [discriminate|].
      split; [done|].
      intros doc' elements' [= <-] He. rewrite Hsel in He. discriminate He.
  - unfold extract_by_selector. run_monad.
    eexists _, _. split; [reflexivity|].
    split; [repeat constructor|]. split; [constructor|].
    split; [done|]. split; intros; discriminate.
Qed.

End ExtractionProperties.

Section ExtractMultipleProperties.
Context {Document Element : Type} {web : Web Document Element}.

Lemma extract_fields_assign self doc selectors : forall results s,
  exists log,
    extract_fields self (Some doc) selectors results s
    = mkRes s log (inl (assign_all (extracted doc selectors) results))
    /\ Forall (λ ev, is_log ev = true) log.
Proof.
  induction selectors as [|[field_name info] rest IH]; intros results s.
  - exists []. split; [reflexivity|constructor].
  - cbn [extract_fields extracted omap list_omap fst snd usable].
    destruct info as [css|selector attr]; cbn [usable].
    + destruct (extract_by_selector_selected self doc css None s)
        as (log1 & E1 & L1).
      destruct (IH (dict_set field_name (selected doc css None) results) s)
        as (log2 & E2 & L2).
      remember (Some doc) as soup eqn:Hsoup in *.
      run_monad. rewrite E1, E2.
      eexists. split; [reflexivity|]. apply Forall_app; auto.
    + destruct (truthy selector).
      * destruct (extract_by_selector_selected self doc
                    (default [] selector) (Some attr) s)
          as (log1 & E1 & L1).
        destruct (IH (dict_set field_name
                        (selected doc (default [] selector) (Some attr))
                        results) s)
          as (log2 & E2 & L2).
        remember (Some doc) as soup eqn:Hsoup in *.
        run_monad. rewrite E1, E2.
        eexists. split; [reflexivity|]. apply Forall_app; auto.
      * destruct (IH results s) as (log2 & E2 & L2).
        remember (Some doc) as soup eqn:Hsoup in *.
        run_monad. rewrite E2.
        eexists. split; [reflexivity|]. repeat constructor. exact L2.
Qed.

Lemma dict_set_fresh {V} k (v : V) d :
  k ∉ dict_keys d -> dict_set k v d = d ++ [(k, v)].
Proof.
  unfold dict_keys. induction d as [|[k' v'] r IH]; intros Hk; [done|].
  cbn [dict_set app]. cbn [map fst] in Hk.
  apply not_elem_of_cons in Hk as [Hne Hr].
  unfold str_eqb. rewrite bool_decide_eq_false_2 by done.
  by rewrite IH.
Qed.

Lemma assign_all_fresh {V} (l : list (str * V)) : forall d,
  NoDup (dict_keys d ++ dict_keys l) -> assign_all l d = d ++ l.
Proof.
  unfold dict_keys.
  induction l as [|[k v] l IH]; intros d Hnd.
  - by rewrite app_nil_r.
  - change (assign_all ((k, v) :: l) d)
      with (assign_all l (dict_set k v d)).
    cbn [map fst] in Hnd.
    assert (Hk : k ∉ map fst d).
    { apply NoDup_app in Hnd as (_ & Hdis & _).
      intros Hin. apply (Hdis k Hin). apply list_elem_of_here. }
    rewrite (dict_set_fresh k v d Hk).
    rewrite IH.
    + by rewrite <- app_assoc.
    + rewrite map_app. cbn [map fst]. by rewrite <- app_assoc.
Qed.

Lemma NoDup_keys_filter {V} (P : str * V -> Prop)
  `{!forall x, Decision (P x)} (d : list (str * V)) :
  NoDup (map fst d) -> NoDup (map fst (filter P d)).
Proof.
  induction d as [|[k v] r IH]; intros Hnd; [done|].
  cbn [map fst] in Hnd. apply NoDup_cons in Hnd as [Hk Hr].
  destruct (decide (P (k, v))) as [HP|HP].
  - rewrite filter_cons_True by done. cbn [map fst].
    apply NoDup_cons. split; [|by apply IH].
    intros Hin. apply Hk.
    apply list_elem_of_fmap in Hin as ([k' v'] & -> & Hin).
    apply list_elem_of_filter in Hin as [_ Hin].
    apply list_elem_of_fmap. by exists (k', v').
  - rewrite filter_cons_False by done. by apply IH.
Qed.

Lemma extracted_keys doc selectors :
  dict_keys (extracted doc selectors)
  = dict_keys (filter (λ entry, is_Some (usable (snd entry))) selectors).
Proof.
  unfold dict_keys, extracted.
  induction selectors as [|[field info] rest IH]; [done|].
  cbn [omap list_omap fst snd].
  destruct (usable info) as [[css attr]|] eqn:Hu.
  - rewrite filter_cons_True by (cbn; rewrite Hu; eauto).
    cbn [map fst]. by rewrite IH.
  - rewrite filter_cons_False; [exact IH|].
    cbn. rewrite Hu. by intros [? ?].
Qed.

Lemma dict_get_elem {V} k (v : V) d :
  NoDup (dict_keys d) -> (k, v) ∈ d -> dict_get k d = Some v.
Proof.
  unfold dict_keys.
  induction d as [|[k' v'] r IH]; intros Hnd Hin; [by inversion Hin|].
  cbn [map fst] in Hnd. apply NoDup_cons in Hnd as [Hk' Hr].
  cbn [dict_get]. unfold str_eqb.
  apply elem_of_cons in Hin as [[= -> ->]|Hin].
  - by rewrite bool_decide_eq_true_2.
  - rewrite bool_decide_eq_false_2; [by apply IH|].
    intros ->. apply Hk'. apply list_elem_of_fmap. by exists (k', v).
Qed.

Lemma extracted_elem doc selectors field info css attr :
  (field, info) ∈ selectors -> usable info = Some (css, attr) ->
  (field, selected doc css attr) ∈ extracted doc selectors.
Proof.
  intros Hin Hu. unfold extracted. apply list_elem_of_omap.
  exists (field, info). split; [done|]. cbn. by rewrite Hu.
Qed.

Lemma extract_multiple_value self doc selectors s :
  NoDup (dict_keys selectors) ->
  res_val (extract_multiple self (Some doc) selectors s)
  = inl (extracted doc selectors)
  /\ res_store (extract_multiple self (Some doc) selectors s) = s
  /\ dict_keys (extracted doc selectors)
     = dict_keys
         (filter (λ entry, is_Some (usable (snd entry))) selectors)
  /\ forall field info css attr,
       (field, info) ∈ selectors -> usable info = Some (css, attr) ->
       dict_get field (extracted doc selectors)
       = Some (selected doc css attr).
Proof.
  intros Hnd.
  assert (Hnd' : NoDup (dict_keys (extracted doc selectors))).
  { rewrite extracted_keys. unfold dict_keys.
    by apply NoDup_keys_filter. }
  unfold extract_multiple.
  destruct (extract_fields_assign self doc selectors [] s) as (log & E & _).
  rewrite E. cbn [res_val res_store].
  rewrite assign_all_fresh by exact Hnd'. cbn [app].
  split; [reflexivity|]. split; [reflexivity|].
  split; [apply extracted_keys|].
  intros field info css attr Hin Hu.
  apply dict_get_elem; [exact Hnd'|]. by eapply extracted_elem.
Qed.

(** On a parsed page, [extract_multiple] returns one field per selector
    that names a css, in the order of the selectors and whatever each
    matched: a selector string is always there, possibly with the empty
    list, a dictionary without css is skipped; each field has the list
    [extract_by_selector] gives for it, and nothing is raised. *)
Theorem extract_multiple_fields self doc selectors s :
  NoDup (dict_keys selectors) ->
  res_val (extract_multiple self (Some doc) selectors s)
  = inl (extracted doc selectors)
  /\ res_store (extract_multiple self (Some doc) selectors s) = s
  /\ dict_keys (extracted doc selectors)
     = dict_keys
         (filter (λ entry, is_Some (usable (snd entry))) selectors)
  /\ forall field info css attr,
       (field, info) ∈ selectors -> usable info = Some (css, attr) ->
       dict_get field (extracted doc selectors)
       = Some (selected doc css attr).
Proof. apply extract_multiple_value. Qed.

Lemma main_parse_loaded self url selectors s response doc :
  httpx_get url (timeout self) = inl response ->
  (200 <= status_code response <= 299)%Z ->
  BS (body response) = inl doc ->
  NoDup (dict_keys selectors) ->
  res_val (main_parse self url selectors s) = inl (extracted doc selectors)
  /\ res_store (main_parse self url selectors s) = s
  /\ extraction_runs (res_out (main_parse self url selectors s)) = 1.
Proof.
  intros Hget Hst Hbs Hnd.
  destruct (fetch_page_returns self url s) as (log1 & soup & E1 & L1).
  assert (Hsoup : soup = Some doc).
  { assert (H : res_val (fetch_page self url s) = inl (Some doc))
      by (apply fetch_page_loaded; eauto).
    rewrite E1 in H. by injection H. }
  subst soup.
  destruct (extract_multiple_value self doc selectors s Hnd)
    as (Hval & Hstore & _).
  destruct (extract_fields_returns self (Some doc) selectors [] s)
    as (log2 & found & E2 & L2).
  change (extract_fields self (Some doc) selectors [] s)
    with (extract_multiple self (Some doc) selectors s) in E2.
  rewrite E2 in Hval. cbn in Hval. injection Hval as ->.
  unfold main_parse, mbind, M_bind. rewrite E1. cbv beta iota.
  rewrite E2. cbn [res_val res_store res_out].
  split; [reflexivity|]. split; [reflexivity|].
  change ((HttpGet url (timeout self) :: log1) ++ log2)
    with ([HttpGet url (timeout self)] ++ log1 ++ log2).
  by rewrite !extraction_runs_app, (logs_hold_no_run log1 L1),
       (logs_hold_no_run log2 L2).
Qed.

(** When the page loads (a 2xx response that parses), [main_parse]
    returns what [extract_multiple] extracts from it, having loaded the
    page once; nothing is raised and no store is changed. *)
Theorem main_parse_success self url selectors s response doc :
  httpx_get url (timeout self) = inl response ->
  (200 <= status_code response <= 299)%Z ->
  BS (body response) = inl doc ->
  NoDup (dict_keys selectors) ->
  res_val (main_parse self url selectors s) = inl (extracted doc selectors)
  /\ res_store (main_parse self url selectors s) = s
  /\ extraction_runs (res_out (main_parse self url selectors s)) = 1.
Proof. apply main_parse_loaded. Qed.

End ExtractMultipleProperties.

(** ** Commands, keywords and messages without text *)

Section CommandProperties.
Context {case : CaseOps} {aiogram : Aiogram}.
Context {Document Element : Type} {web : Web Document Element}.

(** [/parse] restarts the build in whatever state the conversation is:
    the state becomes [WAITING_FOR_URL], the selectors of a known user
    are emptied (an unknown user gets no entry), and the FSM data, with
    the url of an earlier build, stay as they are. *)
Theorem parse_command_restarts s m :
  command (u "start") m = false ->
  command (u "help") m = false ->
  command (u "parse") m = true ->
  res_val (dispatch m s) = inl tt
  /\ state_of m (res_store (dispatch m s)) = Some WAITING_FOR_URL
  /\ data_of m (res_store (dispatch m s)) = data_of m s
  /\ selectors_of (from_user_id m) (res_store (dispatch m s)) = []
  /\ user_selectors (res_store (dispatch m s))
     = match user_selectors s !! from_user_id m with
       | Some _ => <[from_user_id m := []]> (user_selectors s)
       | None => user_selectors s
       end.
Proof.
  intros H1 H2 H3. route. unfold get_parse. handle.
  unfold state_of, data_of, selectors_of.
  destruct (user_selectors s !! from_user_id m) as [d|] eqn:Hd.
  - rewrite bool_decide_eq_true_2 by eauto. handle.
    autorewrite with store. cbn. by rewrite lookup_insert_eq.
  - rewrite bool_decide_eq_false_2 by (by intros [? ?]). handle.
    autorewrite with store. cbn. by rewrite Hd.
Qed.

Lemma keywords_differ : u "очистить" <> u "готово".
Proof. vm_compute. discriminate. Qed.

(** The "clear" keyword in [CONFIRM_SELECTORS], in any letter case,
    empties the selectors of the user and asks for a field name; the url
    and the rest of the FSM data are as before. *)
Theorem clear_keyword_empties_spec s m t :
  state_of m s = Some CONFIRM_SELECTORS ->
  text m = Some t -> lower t = u "очистить" -> plain m ->
  res_val (dispatch m s) = inl tt
  /\ selectors_of (from_user_id m) (res_store (dispatch m s)) = []
  /\ state_of m (res_store (dispatch m s))
     = Some WAITING_FOR_SELECTOR_NAME
  /\ url (data_of m (res_store (dispatch m s))) = url (data_of m s)
  /\ data_of m (res_store (dispatch m s)) = data_of m s.
Proof.
  intros Hs Ht Hl Hp.
  assert (Hd : F_text_lower_eq (u "готово") m = false).
  { apply (F_keyword_false m t _ Ht). rewrite Hl. apply keywords_differ. }
  assert (Hc : F_text_lower_eq (u "очистить") m = true).
  { unfold F_text_lower_eq, str_eqb. rewrite Ht.
    by apply bool_decide_eq_true_2. }
  rewrite (dispatch_clear s m Hs Hd Hc Hp).
  unfold clear_selectors. handle.
  unfold state_of, data_of. autorewrite with store. cbn. done.
Qed.

(** [/start] and [/help] answer their fixed text in every state and
    change neither the conversation nor the selectors. *)
Theorem start_and_help_change_nothing s m :
  (command (u "start") m = true ->
   dispatch m s = mkRes s [Answer (chat_id m) start_text] (inl tt))
  /\ (command (u "start") m = false -> command (u "help") m = true ->
      dispatch m s = mkRes s [Answer (chat_id m) help_text] (inl tt)).
Proof. split; intros; by route. Qed.

(** Outside a build (default state), a message that is no command gets
    no reply and changes nothing. *)
Theorem idle_conversation_ignores_message s m :
  state_of m s = None -> plain m ->
  command (u "quick_parse") m = false ->
  command (u "example") m = false ->
  dispatch m s = mkRes s [] (inl tt).
Proof. intros Hs Hp Hq He. by route. Qed.

(** A message without text (a photo, a sticker) that is no command is
    ignored in every state but one: in [WAITING_FOR_SELECTOR_VALUE] it
    reaches [process_selector_for_attr], whose [message.text.strip()]
    raises [AttributeError].  Nothing is stored or replied either way. *)
Theorem message_without_text s m :
  text m = None -> plain m ->
  command (u "quick_parse") m = false ->
  command (u "example") m = false ->
  (state_of m s <> Some WAITING_FOR_SELECTOR_VALUE ->
   dispatch m s = mkRes s [] (inl tt))
  /\ (state_of m s = Some WAITING_FOR_SELECTOR_VALUE ->
      res_store (dispatch m s) = s
      /\ res_out (dispatch m s) = []
      /\ exists e, res_val (dispatch m s) = inr e
                   /\ exc_class e = AttributeError).
Proof.
  intros Ht Hp Hq He.
  assert (Hf : F_text m = false) by (unfold F_text; by rewrite Ht).
  assert (Hk : forall keyword, F_text_lower_eq keyword m = false)
    by (intros; unfold F_text_lower_eq; by rewrite Ht).
  split; intros Hs.
  - unfold dispatch, router, Command, in_state. cbn [find accepts callback].
    destruct Hp as (H1 & H2 & H3).
    rewrite H1, H2, H3, Hq, He, Hf, !Hk, !andb_false_r.
    unfold state_of in Hs.
    by destruct (fsm_state (fsm_record (key_of m) s)) as [[]|].
  - unfold dispatch, router, Command, in_state. cbn [find accepts callback].
    destruct Hp as (H1 & H2 & H3). unfold state_of in Hs.
    rewrite H1, H2, H3, Hf, Hs, !andb_false_r. cbn [state_is callback].
    unfold process_selector_for_attr. handle. rewrite Ht. handle.
    repeat split. eexists. split; reflexivity.
Qed.

End CommandProperties.

(** ** The footprint of a turn *)

Section FootprintProperties.
Context {case : CaseOps} {aiogram : Aiogram}.
Context {Document Element : Type} {web : Web Document Element}.

(** The two handlers of the attribute step, run by hand one after the
    other (the router never gets there with text turns), store the
    dictionary of the css and the attribute under the pending field
    name, at the place the name had if it was there already. *)
Theorem attribute_handlers_store_dict chat user t1 t2 name d s :
  current_selector (fsm_data (fsm_record (chat, user) s)) = Some name ->
  user_selectors s !! user = Some d ->
  state_of (mkMessage chat user (Some t2))
    (res_store
       (process_selector_for_attr (mkMessage chat user (Some t1)) s))
  = Some WAITING_FOR_SELECTOR_ATTR
  /\ res_val
       (process_selector_attr (mkMessage chat user (Some t2))
          (res_store
             (process_selector_for_attr (mkMessage chat user (Some t1)) s)))
     = inl tt
  /\ selectors_of user
       (res_store
          (process_selector_attr (mkMessage chat user (Some t2))
             (res_store
                (process_selector_for_attr
                   (mkMessage chat user (Some t1)) s))))
     = dict_set name (SelDict (Some (strip t1)) (strip t2)) d
  /\ state_of (mkMessage chat user (Some t2))
       (res_store
          (process_selector_attr (mkMessage chat user (Some t2))
             (res_store
                (process_selector_for_attr
                   (mkMessage chat user (Some t1)) s))))
     = Some CONFIRM_SELECTORS.
Proof.
  intros Hn Hd.
  set (m1 := mkMessage chat user (Some t1)).
  set (m2 := mkMessage chat user (Some t2)).
  assert (E1 : res_store (process_selector_for_attr m1 s)
               = put_record (chat, user)
                   (mkFsm (Some WAITING_FOR_SELECTOR_ATTR)
                      (set_selector_value (strip t1)
                         (fsm_data (fsm_record (chat, user) s)))) s).
  { unfold process_selector_for_attr. handle.
    by autorewrite with store. }
  rewrite E1. set (s1 := put_record _ _ s).
  destruct (process_attr_eval s1 m2 t2 name d eq_refl) as (reply & E2).
  { unfold data_of, s1. cbn. by autorewrite with store. }
  { exact Hd. }
  rewrite E2. cbn [res_val res_store].
  unfold state_of, data_of, s1. cbn.
  autorewrite with store. cbn. done.
Qed.

Lemma dispatch_own s m : own_update m s (res_store (dispatch m s)).
Proof.
  unfold dispatch, router, Command, in_state.
  cbn [find accepts callback].
  repeat match goal with
  | |- context [if ?c then Some _ else _] => destruct c eqn:?
  end.
  all: cbn [callback].
  all: try (destruct (selectors_of (from_user_id m) s) eqn:Hsel;
            [ rewrite (finish_empty s m Hsel)
            | destruct (finish_nonempty s m) as (? & ? & ? & E & _);
              [by rewrite Hsel|rewrite E] ];
            cbn [res_store]; repeat constructor).
  all: unfold start_cmd, get_help, get_parse, process_url,
         process_selector_name, process_selector_value,
         process_selector_for_attr, process_selector_attr,
         clear_selectors, add_next_selector, quick_parse_command,
         show_examples, ask_for_next_selector;
       handle;
       repeat match goal with
       | |- context [match ?x with _ => _ end] =>
         lazymatch x with
         | context [match _ with _ => _ end] => fail
         | _ => destruct x eqn:?
         end; handle
       end.
  all: repeat constructor.
Qed.

Lemma own_update_frame m s s' :
  own_update m s s' ->
  (forall k, k <> key_of m -> fsm_record k s' = fsm_record k s)
  /\ (forall v, v <> from_user_id m ->
      user_selectors s' !! v = user_selectors s !! v)
  /\ (forall v, is_Some (user_selectors s !! v) ->
      is_Some (user_selectors s' !! v)).
Proof.
  induction 1 as [|r s' _ (IH1 & IH2 & IH3)|d s' _ (IH1 & IH2 & IH3)].
  - done.
  - split; [|split].
    + intros k Hk. rewrite fsm_record_put_ne by done. by apply IH1.
    + intros v Hv. rewrite user_selectors_put_record. by apply IH2.
    + intros v Hv. rewrite user_selectors_put_record. by apply IH3.
  - split; [|split].
    + intros k Hk. rewrite fsm_record_put_selectors. by apply IH1.
    + intros v Hv. rewrite user_selectors_put_selectors.
      rewrite lookup_insert_ne by done. by apply IH2.
    + intros v Hv. rewrite user_selectors_put_selectors.
      destruct (decide (from_user_id m = v)) as [->|Hne].
      * rewrite lookup_insert_eq. eauto.
      * rewrite lookup_insert_ne by done. by apply IH3.
Qed.

(** A turn reads and writes its own conversation and the selectors of
    its own user only: the state and data of every other (chat, user)
    pair and the selectors of every other user are as before, and no
    user ever loses the entry in [user_selectors]. *)
Theorem turn_touches_own_conversation s m :
  (forall k, k <> key_of m ->
   fsm_record k (res_store (dispatch m s)) = fsm_record k s)
  /\ (forall v, v <> from_user_id m ->
      user_selectors (res_store (dispatch m s)) !! v
      = user_selectors s !! v)
  /\ (forall v, is_Some (user_selectors s !! v) ->
      is_Some (user_selectors (res_store (dispatch m s)) !! v)).
Proof. apply own_update_frame, dispatch_own. Qed.

End FootprintProperties.

(** ** Reachable stores *)

Section ReachableProperties.
Context {case : CaseOps} {aiogram : Aiogram}.
Context {Document Element : Type} {web : Web Document Element}.

Lemma users_known_empty : users_known empty_store.
Proof.
  intros c v. unfold fsm_record. cbn. rewrite lookup_empty. cbn.
  discriminate.
Qed.

Lemma dispatch_own_user s m :
  users_known s -> pending_name_set s ->
  (needs_user (state_of m (res_store (dispatch m s))) = true ->
   is_Some (user_selectors (res_store (dispatch m s)) !! from_user_id m))
  /\ (is_Some (text m) -> res_val (dispatch m s) = inl tt).
Proof.
  intros Hu Hp.
  pose proof (Hu (chat_id m) (from_user_id m)) as Hk.
  pose proof (Hp (key_of m)) as Hn. unfold record_ok in Hn.
  change (chat_id m, from_user_id m) with (key_of m) in Hk.
  unfold state_of, dispatch, router, Command, in_state.
  cbn [find accepts callback].
  repeat match goal with
  | |- context [if ?c then Some _ else _] => destruct c eqn:?
  end;
  repeat match goal with
  | H : _ && _ = true |- _ => apply andb_prop in H as [? ?]
  | H : state_is _ _ = true |- _ => apply state_is_true in H
  end.
  all: cbn [callback].
  all: unfold start_cmd, get_help, get_parse, process_url,
         process_selector_name, process_selector_value,
         process_selector_for_attr, process_selector_attr,
         clear_selectors, add_next_selector, quick_parse_command,
         show_examples, ask_for_next_selector;
       handle;
       repeat match goal with
       | |- context [match ?x with _ => _ end] =>
         lazymatch x with
         | context [match _ with _ => _ end] => fail
         | _ => destruct x eqn:?
         end; handle
       end.
  all: autorewrite with store; cbn.
  all: split; [|try done].
  all: try exact Hk.
  all: try discriminate.
  all: try (intros _; rewrite lookup_insert_eq; eauto).
  all: try (intros _; apply Hk;
            match goal with
            | H : fsm_state _ = Some _ |- _ => by rewrite H
            end).
  all: try (intros [? ?]; congruence).
  all: try (exfalso; apply Hn; [by rewrite H|reflexivity]).
  all: try (exfalso; destruct Hk as [? ?]; [by rewrite H|discriminate]).
  all: try (intros Hx; destruct (Hk Hx) as [? ?]; discriminate).
  all: destruct (selectors_of (from_user_id m) s) eqn:Hsel.
  all: try rewrite (finish_empty s m Hsel).
  all: try (destruct (finish_nonempty s m) as (? & ? & ? & E & _);
            [by rewrite Hsel|rewrite E]).
  all: cbn [res_store res_val]; autorewrite with store; cbn.
  all: try done.
  intros _. apply Hk. by rewrite H.
Qed.

Lemma dispatch_keeps_users_known s m :
  users_known s -> pending_name_set s ->
  users_known (res_store (dispatch m s)).
Proof.
  intros Hu Hp c v Hneed.
  destruct (own_update_frame m s _ (dispatch_own s m)) as (Hf1 & _ & Hf3).
  destruct (decide ((c, v) = key_of m)) as [Heq|Hne].
  - injection Heq as -> ->.
    by apply (dispatch_own_user s m Hu Hp).
  - rewrite Hf1 in Hneed by done. apply Hf3. exact (Hu c v Hneed).
Qed.

Lemma run_keeps_users_known turns : forall s,
  users_known s -> pending_name_set s ->
  users_known (fst (run turns s)) /\ pending_name_set (fst (run turns s)).
Proof.
  induction turns as [|m rest IH]; intros s Hu Hp; [done|].
  cbn [run].
  pose proof (dispatch_keeps_users_known s m Hu Hp) as Hu'.
  pose proof (dispatch_keeps_pending_name s m Hp) as [Hp' _].
  destruct (dispatch m s) as [s1 out1 v1]. cbn in Hu', Hp'.
  specialize (IH s1 Hu' Hp'). by destruct (run rest s1).
Qed.

(** In every store the bot can reach from its start, whatever the
    messages were, a message with text is handled without an exception:
    the handlers raise neither [KeyError] on [user_selectors] nor
    [AttributeError] on the text. *)
Theorem text_turn_never_raises turns m :
  is_Some (text m) ->
  res_val (dispatch m (fst (run turns empty_store))) = inl tt.
Proof.
  intros Ht.
  destruct (run_keeps_users_known turns empty_store users_known_empty
              pending_empty_store) as [Hu Hp].
  by apply (dispatch_own_user _ m Hu Hp).
Qed.

End ReachableProperties.

Section SimpleSelectors.
Context {case : CaseOps} {aiogram : Aiogram}.
Context {Document Element : Type} {web : Web Document Element}.

Lemma simple_empty : simple_only empty_store.
Proof.
  split.
  - intros k. unfold fsm_record. cbn. by rewrite lookup_empty.
  - intros v d. cbn. by rewrite lookup_empty.
Qed.

Lemma simple_put k r s :
  simple_only s -> fsm_state r <> Some WAITING_FOR_SELECTOR_ATTR ->
  simple_only (put_record k r s).
Proof.
  intros [H1 H2] Hr. split; [|exact H2].
  intros k'. destruct (decide (k = k')) as [->|Hne].
  - by rewrite fsm_record_put_eq.
  - by rewrite fsm_record_put_ne.
Qed.

Lemma simple_put_selectors v d s :
  simple_only s -> Forall is_simple d ->
  simple_only (put_selectors v d s).
Proof.
  intros [H1 H2] Hd. split; [exact H1|].
  intros v' d'. rewrite user_selectors_put_selectors.
  destruct (decide (v = v')) as [->|Hne].
  - rewrite lookup_insert_eq. by intros [= <-].
  - rewrite lookup_insert_ne by done. apply H2.
Qed.

Lemma dict_set_simple k css d :
  Forall is_simple d -> Forall is_simple (dict_set k (SelStr css) d).
Proof.
  induction d as [|[k' v'] r IH]; intros Hd; cbn [dict_set].
  - constructor; [by exists css|constructor].
  - apply Forall_cons in Hd as [H1 H2].
    destruct (str_eqb k k'); constructor; auto. by exists css.
Qed.

Lemma dispatch_keeps_simple s m :
  simple_only s -> text m <> Some [] ->
  simple_only (res_store (dispatch m s)).
Proof.
  intros Hs Ht. pose proof Hs as [Hs1 Hs2].
  pose proof (Hs1 (key_of m)) as Hk.
  unfold dispatch, router, Command, in_state.
  cbn [find accepts callback].
  repeat match goal with
  | |- context [if ?c then Some _ else _] => destruct c eqn:?
  end;
  repeat match goal with
  | H : _ && _ = true |- _ => apply andb_prop in H as [? ?]
  | H : state_is _ _ = true |- _ => apply state_is_true in H
  end.
  all: cbn [callback].
  all: try congruence.
  all: unfold start_cmd, get_help, get_parse, process_url,
         process_selector_name, process_selector_value,
         process_selector_for_attr, process_selector_attr,
         clear_selectors, add_next_selector, quick_parse_command,
         show_examples, ask_for_next_selector;
       handle;
       repeat match goal with
       | |- context [match ?x with _ => _ end] =>
         lazymatch x with
         | context [match _ with _ => _ end] => fail
         | _ => destruct x eqn:?
         end; handle
       end.
  all: repeat first
         [ exact Hs
         | apply simple_put
         | apply simple_put_selectors ].
  all: cbn; autorewrite with store; cbn.
  all: try discriminate.
  all: try exact Hk.
  all: try apply Forall_nil_2.
  all: try (apply dict_set_simple; eapply Hs2; eassumption).
  - exfalso. cbn in Heqb4. unfold F_text in Heqb4. rewrite Heqo in Heqb4.
    destruct l; [by apply Ht|discriminate Heqb4].
  - destruct (selectors_of (from_user_id m) s) eqn:Hsel.
    + rewrite (finish_empty s m Hsel). cbn [res_store].
      by apply simple_put.
    + destruct (finish_nonempty s m) as (? & ? & ? & E & _);
        [by rewrite Hsel|rewrite E].
      cbn [res_store]. by apply simple_put.
Qed.

(** As long as no message has the empty string as its text (Telegram
    sends none), no conversation ever waits for an attribute name and
    every selector in [user_selectors] is a plain css string: the bot
    never stores a selector with an attribute. *)
Theorem only_simple_selectors_are_stored turns :
  Forall (λ m, text m <> Some []) turns ->
  simple_only (fst (run turns empty_store)).
Proof.
  assert (H : forall s, simple_only s ->
            Forall (λ m, text m <> Some []) turns ->
            simple_only (fst (run turns s))).
  { induction turns as [|m rest IH]; intros s Hs Hall; [done|].
    apply Forall_cons in Hall as [Hm Hrest]. cbn [run].
    pose proof (dispatch_keeps_simple s m Hs Hm) as Hs'.
    destruct (dispatch m s) as [s1 out1 v1]. cbn in Hs'.
    specialize (IH s1 Hs' Hrest). by destruct (run rest s1). }
  apply H, simple_empty.
Qed.

End SimpleSelectors.

(** ** The replies to "done" *)

Section FinishProperties.
Context {case : CaseOps} {aiogram : Aiogram}.
Context {Document Element : Type} {web : Web Document Element}.

Lemma main_parse_failure self url selectors s :
  FetchFailure self url ->
  exists log,
    main_parse self url selectors s
    = mkRes s (HttpGet url (timeout self) :: log) (inl [])
    /\ Forall (λ ev, is_log ev = true) log.
Proof.
  intros Hf.
  destruct (fetch_page_failure self url s Hf) as (log & E).
  destruct (fetch_page_returns self url s) as (log' & soup & E' & L).
  rewrite E in E'. injection E' as -> <-.
  unfold main_parse. run_monad. rewrite E. cbn.
  eexists. split; [reflexivity|].
  apply Forall_app. split; [exact L|repeat constructor].
Qed.

Lemma finish_replies s m :
  selectors_of (from_user_id m) s <> [] ->
  exists log results,
    main_parse (mkParser 30) (url (data_of m s))
      (selectors_of (from_user_id m) s)
      (put_record (key_of m) fresh_record s)
    = mkRes (put_record (key_of m) fresh_record s)
        (HttpGet (url (data_of m s)) 30 :: log) (inl results)
    /\ Forall (λ ev, is_log ev = true) log
    /\ finish_selectors m s
       = mkRes (put_record (key_of m) fresh_record s)
           (Answer (chat_id m)
              (starting_text (url (data_of m s))
                 (selectors_of (from_user_id m) s))
            :: HttpGet (url (data_of m s)) 30
            :: log
            ++ [Answer (chat_id m)
                  (if negb (dict_is_empty results) then done_text results
                   else no_data_text)])
           (inl tt).
Proof.
  intros Hne.
  destruct (main_parse_returns (mkParser 30) (url (data_of m s))
              (selectors_of (from_user_id m) s)
              (put_record (key_of m) fresh_record s))
    as (log & results & E & L).
  exists log, results. split; [exact E|]. split; [exact L|].
  unfold finish_selectors, starting_text, done_text, no_data_text. handle.
  destruct (selectors_of (from_user_id m) s) as [|entry rest] eqn:Hsel;
    [done|].
  handle. unfold data_of in E. rewrite E. cbn.
  destruct (dict_is_empty results); cbn; reflexivity.
Qed.

(** When the page cannot be loaded, the "done" turn answers twice, with
    the start notice and then the fixed no-data notice; it raises
    nothing, and the request is made once. *)
Theorem done_after_failed_fetch s m :
  state_of m s = Some CONFIRM_SELECTORS ->
  F_text_lower_eq (u "готово") m = true ->
  plain m ->
  selectors_of (from_user_id m) s <> [] ->
  FetchFailure (mkParser 30) (url (data_of m s)) ->
  res_val (dispatch m s) = inl tt
  /\ exists log,
       res_out (dispatch m s)
       = Answer (chat_id m)
           (starting_text (url (data_of m s))
              (selectors_of (from_user_id m) s))
         :: HttpGet (url (data_of m s)) 30
         :: log ++ [Answer (chat_id m) no_data_text]
       /\ Forall (λ ev, is_log ev = true) log.
Proof.
  intros Hs Hd Hp Hne Hf.
  rewrite (dispatch_finish s m Hs Hd Hp).
  destruct (finish_replies s m Hne) as (log & results & E & L & ->).
  destruct (main_parse_failure (mkParser 30) (url (data_of m s))
              (selectors_of (from_user_id m) s)
              (put_record (key_of m) fresh_record s) Hf)
    as (log' & E' & _).
  rewrite E' in E. injection E as -> <-.
  cbn. split; [reflexivity|]. by exists log.
Qed.

End FinishProperties.

Section FinishLoaded.
Context {case : CaseOps} {aiogram : Aiogram}.
Context {Document Element : Type} {web : Web Document Element}.

Lemma extracted_nonempty (doc : Document) selectors :
  Exists (λ entry, is_Some (usable (snd entry))) selectors ->
  dict_is_empty (extracted doc selectors) = false.
Proof.
  unfold extracted.
  induction 1 as [[field info] rest [[css attr] Hu]|entry rest _ IH].
  - cbn in Hu. cbn. by rewrite Hu.
  - cbn. by destruct (usable (snd entry)) as [[? ?]|].
Qed.

(** When the page loads and at least one selector names a css, the
    "done" turn answers with the start notice and then with the
    formatted results, also when nothing on the page matched: the
    no-data notice is not sent for a page that loaded. *)
Theorem done_after_loaded_page s m response doc :
  state_of m s = Some CONFIRM_SELECTORS ->
  F_text_lower_eq (u "готово") m = true ->
  plain m ->
  httpx_get (url (data_of m s)) 30 = inl response ->
  (200 <= status_code response <= 299)%Z ->
  BS (body response) = inl doc ->
  NoDup (dict_keys (selectors_of (from_user_id m) s)) ->
  Exists (λ entry, is_Some (usable (snd entry)))
    (selectors_of (from_user_id m) s) ->
  res_val (dispatch m s) = inl tt
  /\ exists log,
       res_out (dispatch m s)
       = Answer (chat_id m)
           (starting_text (url (data_of m s))
              (selectors_of (from_user_id m) s))
         :: HttpGet (url (data_of m s)) 30
         :: log
         ++ [Answer (chat_id m)
               (done_text
                  (extracted doc (selectors_of (from_user_id m) s)))]
       /\ Forall (λ ev, is_log ev = true) log.
Proof.
  intros Hs Hd Hp Hget Hst Hbs Hnd Hex.
  assert (Hne : selectors_of (from_user_id m) s <> []).
  { intros E. rewrite E in Hex. by apply Exists_nil in Hex. }
  rewrite (dispatch_finish s m Hs Hd Hp).
  destruct (finish_replies s m Hne) as (log & results & E & L & ->).
  destruct (main_parse_loaded (mkParser 30) (url (data_of m s))
              (selectors_of (from_user_id m) s)
              (put_record (key_of m) fresh_record s) response doc
              Hget Hst Hbs Hnd) as (Hval & _).
  rewrite E in Hval. cbn in Hval. injection Hval as ->.
  rewrite (extracted_nonempty doc _ Hex).
  cbn [res_val res_out negb]. split; [reflexivity|]. by exists log.
Qed.

End FinishLoaded.

Section FormattingEdges.
Context {case : CaseOps}.

(** When no field has a value, the text is the title line and a line
    break, whatever the number of fields. *)
Theorem format_results_nothing_matched results :
  results <> [] ->
  Forall (λ entry, snd entry = []) results ->
  format_results results = u "📊 РЕЗУЛЬТАТЫ ПАРСИНГА:" ++ nl.
Proof.
  intros Hne Hall.
  assert (Hl : concat (map field_lines results) = []).
  { clear Hne. induction Hall as [|[field items] rest Hi _ IH]; [done|].
    cbn in Hi. subst items. cbn [map concat field_lines app]. exact IH. }
  unfold format_results, result_lines. rewrite Hl.
  destruct results as [|entry rest]; [done|]. cbn [dict_is_empty].
  vm_compute. reflexivity.
Qed.

End FormattingEdges.

(** ** Further runs on given inputs *)

Lemma extract_by_selector_texts_witness :
  res_val
    (@extract_by_selector _ _ toy_web (mkParser 30) (Some toy_page)
       (u "h1") None empty_store)
  = inl [u "A"].
Proof.
  etransitivity.
  - apply (@extract_by_selector_texts _ _ toy_web (mkParser 30) toy_page
             (u "h1") None [mkElem (u "h1") (u "A") []] empty_store).
    + vm_compute. reflexivity.
    + reflexivity.
  - vm_compute. reflexivity.
Defined.

Lemma extract_by_selector_attributes_witness :
  res_val
    (@extract_by_selector _ _ toy_web (mkParser 30) (Some toy_page)
       (u "a") (Some (u "href")) empty_store)
  = inl [u "/x"].
Proof.
  etransitivity.
  - apply (@extract_by_selector_attributes _ _ toy_web (mkParser 30)
             toy_page (u "a") (u "href")
             [mkElem (u "a") (u "t") [(u "href", AttrStr (u "/x"))];
              mkElem (u "a") (u "no-href") []] empty_store).
    + vm_compute. reflexivity.
    + vm_compute. discriminate.
    + repeat constructor; intros [l H]; vm_compute in H; discriminate H.
  - vm_compute. reflexivity.
Defined.

Lemma extract_by_selector_list_attribute_witness :
  res_val
    (@extract_by_selector _ _ toy_web (mkParser 30) (Some rel_page)
       (u "a") (Some (u "rel")) empty_store)
  = inl [u "next"].
Proof.
  etransitivity.
  - apply (@extract_by_selector_list_attribute _ _ toy_web (mkParser 30)
             rel_page (u "a") (u "rel")
             [mkElem (u "a") (u "x") [(u "rel", AttrStr (u " next "))]]
             (mkElem (u "a") (u "y")
                [(u "rel", AttrList [u "nofollow"; u "noopener"])])
             [mkElem (u "a") (u "z") [(u "rel", AttrStr (u "prev"))]]
             empty_store).
    + vm_compute. reflexivity.
    + vm_compute. discriminate.
    + repeat constructor; intros [l H]; vm_compute in H; discriminate H.
    + exists [u "nofollow"; u "noopener"]. vm_compute. reflexivity.
  - vm_compute. reflexivity.
Defined.

(** Checks that the keys of a given dictionary are distinct. *)
Ltac distinct_keys :=
  vm_compute;
  repeat (apply NoDup_cons;
          split;
          [ let H := fresh in
            intros H; rewrite ?elem_of_cons, ?elem_of_nil in H;
            intuition discriminate
          | ]);
  apply NoDup_nil_2.

Lemma demo_selectors_NoDup : NoDup (dict_keys demo_selectors).
Proof. distinct_keys. Defined.

Lemma extract_multiple_fields_witness :
  res_val
    (@extract_multiple _ _ toy_web (mkParser 30) (Some toy_page)
       demo_selectors empty_store)
  = inl [(u "titles", [u "A"]); (u "links", [u "/x"]);
         (u "paragraphs", [])].
Proof.
  destruct (@extract_multiple_fields _ _ toy_web (mkParser 30) toy_page
              demo_selectors empty_store demo_selectors_NoDup)
    as (Hval & _).
  etransitivity; [exact Hval|]. vm_compute. reflexivity.
Defined.

Lemma main_parse_success_witness :
  res_val
    (@main_parse _ _ toy_web (mkParser 30) example_url demo_selectors
       empty_store)
  = inl [(u "titles", [u "A"]); (u "links", [u "/x"]);
         (u "paragraphs", [])].
Proof.
  destruct (@main_parse_success _ _ toy_web (mkParser 30) example_url
              demo_selectors empty_store (mkResponse 200 (u "<html>"))
              toy_page)
    as (Hval & _).
  - vm_compute. reflexivity.
  - cbn. lia.
  - reflexivity.
  - exact demo_selectors_NoDup.
  - etransitivity; [exact Hval|]. vm_compute. reflexivity.
Defined.

Lemma parse_command_restarts_witness :
  state_of (turn 1 7 "/parse") (res_store (toy_dispatch (turn 1 7 "/parse") review_store))
  = Some WAITING_FOR_URL
  /\ url (data_of (turn 1 7 "/parse")
            (res_store (toy_dispatch (turn 1 7 "/parse") review_store)))
     = Some (u "https://example.com")
  /\ selectors_of 7
       (res_store (toy_dispatch (turn 1 7 "/parse") review_store))
     = [].
Proof.
  destruct (@parse_command_restarts basic_case slash_command _ _ toy_web
              review_store (turn 1 7 "/parse"))
    as (_ & Hstate & Hdata & Hsel & _);
    try (vm_compute; reflexivity).
  split; [exact Hstate|]. split; [|exact Hsel].
  etransitivity; [exact (f_equal url Hdata)|]. vm_compute. reflexivity.
Defined.

Lemma clear_keyword_empties_spec_witness :
  selectors_of 7 review_store <> []
  /\ selectors_of 7
       (res_store (toy_dispatch (turn 1 7 "Очистить") review_store))
     = []
  /\ url (data_of (turn 1 7 "Очистить")
            (res_store (toy_dispatch (turn 1 7 "Очистить") review_store)))
     = url (data_of (turn 1 7 "Очистить") review_store).
Proof.
  destruct (@clear_keyword_empties_spec basic_case slash_command _ _
              toy_web review_store (turn 1 7 "Очистить") (u "Очистить"))
    as (_ & Hsel & _ & Hurl & _);
    try (vm_compute; reflexivity).
  - compute_plain.
  - split; [vm_compute; discriminate|]. split; assumption.
Defined.

Lemma idle_conversation_ignores_message_witness :
  toy_dispatch (turn 1 7 "hello") empty_store = mkRes empty_store [] (inl tt).
Proof.
  apply (@idle_conversation_ignores_message basic_case slash_command _ _
           toy_web empty_store (turn 1 7 "hello"));
    try (vm_compute; reflexivity).
  compute_plain.
Defined.

Lemma message_without_text_witness :
  res_store (toy_dispatch (photo 1 7) value_store) = value_store
  /\ res_out (toy_dispatch (photo 1 7) value_store) = []
  /\ toy_dispatch (photo 1 7) review_store = mkRes review_store [] (inl tt).
Proof.
  destruct (@message_without_text basic_case slash_command _ _ toy_web
              value_store (photo 1 7)) as [_ Hvalue];
    try (vm_compute; reflexivity); [compute_plain|].
  destruct (@message_without_text basic_case slash_command _ _ toy_web
              review_store (photo 1 7)) as [Hother _];
    try (vm_compute; reflexivity); [compute_plain|].
  destruct Hvalue as (H1 & H2 & _); [vm_compute; reflexivity|].
  split; [exact H1|]. split; [exact H2|].
  apply Hother. vm_compute. discriminate.
Defined.

Lemma attribute_handlers_store_dict_witness :
  selectors_of 7
    (res_store
       (process_selector_attr (turn 1 7 " href ")
          (res_store
             (process_selector_for_attr (turn 1 7 "A.Big") value_store))))
  = [(u "links", SelDict (Some (u "A.Big")) (u "href"))].
Proof.
  assert (H1 : current_selector (fsm_data (fsm_record (1, 7)%Z value_store))
               = Some (u "links")) by (vm_compute; reflexivity).
  assert (H2 : user_selectors value_store !! 7%Z = Some [])
    by (vm_compute; reflexivity).
  destruct (attribute_handlers_store_dict 1 7 (u "A.Big") (u " href ")
              (u "links") [] value_store H1 H2)
    as (_ & _ & Hsel & _).
  etransitivity; [exact Hsel|]. vm_compute. reflexivity.
Defined.

Lemma text_turn_never_raises_witness :
  res_val
    (toy_dispatch (turn 1 7 "a")
       (fst (toy_run
               [turn 1 7 "/parse"; photo 1 7; turn 1 7 "example.com";
                turn 1 7 "links"; photo 1 7] empty_store)))
  = inl tt.
Proof.
  apply (@text_turn_never_raises basic_case slash_command _ _ toy_web
           [turn 1 7 "/parse"; photo 1 7; turn 1 7 "example.com";
            turn 1 7 "links"; photo 1 7] (turn 1 7 "a")).
  cbn. eauto.
Defined.

Lemma only_simple_selectors_are_stored_witness :
  simple_only
    (fst (toy_run
            [turn 1 7 "/parse"; turn 1 7 "example.com"; turn 1 7 "links";
             turn 1 7 "атрибут"; photo 1 7; turn 1 7 "a"; turn 1 7 "href"]
            empty_store)).
Proof.
  apply (@only_simple_selectors_are_stored basic_case slash_command _ _
           toy_web).
  repeat constructor; intros H; vm_compute in H; discriminate H.
Defined.

Lemma done_after_failed_fetch_witness :
  res_val (toy_dispatch (turn 1 7 "готово") missing_store) = inl tt
  /\ exists log,
       res_out (toy_dispatch (turn 1 7 "готово") missing_store)
       = Answer 1
           (starting_text
              (url (data_of (turn 1 7 "готово") missing_store))
              (selectors_of 7 missing_store))
         :: HttpGet (url (data_of (turn 1 7 "готово") missing_store)) 30
         :: log ++ [Answer 1 no_data_text]
       /\ Forall (λ ev, is_log ev = true) log.
Proof.
  apply (@done_after_failed_fetch basic_case slash_command _ _ toy_web
           missing_store (turn 1 7 "готово")).
  - vm_compute. reflexivity.
  - vm_compute. reflexivity.
  - compute_plain.
  - vm_compute. discriminate.
  - eapply status_not_2xx with (response := mkResponse 404 []).
    + vm_compute. reflexivity.
    + cbn. lia.
Defined.

Lemma done_after_loaded_page_witness :
  res_val (toy_dispatch (turn 1 7 "готово") review_store) = inl tt
  /\ exists log,
       res_out (toy_dispatch (turn 1 7 "готово") review_store)
       = Answer 1
           (starting_text
              (url (data_of (turn 1 7 "готово") review_store))
              (selectors_of 7 review_store))
         :: HttpGet (url (data_of (turn 1 7 "готово") review_store)) 30
         :: log
         ++ [Answer 1
               (@done_text basic_case
                  (@extracted _ _ toy_web toy_page
                     (selectors_of 7 review_store)))]
       /\ Forall (λ ev, is_log ev = true) log.
Proof.
  apply (@done_after_loaded_page basic_case slash_command _ _ toy_web
           review_store (turn 1 7 "готово") (mkResponse 200 (u "<html>"))
           toy_page).
  - vm_compute. reflexivity.
  - vm_compute. reflexivity.
  - compute_plain.
  - vm_compute. reflexivity.
  - cbn. lia.
  - reflexivity.
  - distinct_keys.
  - replace (selectors_of (from_user_id (turn 1 7 "готово")) review_store)
      with [(u "headers", SelStr (u "h1"))] by (vm_compute; reflexivity).
    apply Exists_cons_hd. cbn. eauto.
Defined.

Lemma format_results_nothing_matched_witness :
  @format_results basic_case [(u "titles", []); (u "links", [])]
  = u "📊 РЕЗУЛЬТАТЫ ПАРСИНГА:" ++ nl.
Proof.
  apply (@format_results_nothing_matched basic_case).
  - discriminate.
  - repeat constructor.
Defined.

(** ** The selector step *)

Section SelectorStep.
Context {case : CaseOps} {aiogram : Aiogram}.
Context {Document Element : Type} {web : Web Document Element}.

(** A selector text that is not the keyword is stored trimmed and in
    lower case under the pending field name (at the place of the name
    if it is there already), the one reply lists the selectors as they
    are stored now, and the state becomes [CONFIRM_SELECTORS]. *)
Theorem selector_turn_shows_stored_spec s m t name d :
  state_of m s = Some WAITING_FOR_SELECTOR_VALUE ->
  text m = Some t -> t <> [] -> plain m ->
  lower (strip t) <> u "атрибут" ->
  current_selector (data_of m s) = Some name ->
  user_selectors s !! from_user_id m = Some d ->
  res_val (dispatch m s) = inl tt
  /\ selectors_of (from_user_id m) (res_store (dispatch m s))
     = dict_set name (SelStr (lower (strip t))) d
  /\ res_out (dispatch m s)
     = [Answer (chat_id m)
          (review_text (dict_set name (SelStr (lower (strip t))) d))]
  /\ state_of m (res_store (dispatch m s)) = Some CONFIRM_SELECTORS
  /\ data_of m (res_store (dispatch m s)) = data_of m s.
Proof.
  intros Hs Ht Hne Hp Hk Hn Hd.
  rewrite (dispatch_value s m Hs (F_text_Some m t Ht Hne) Hp).
  unfold process_selector_value, review_text. handle.
  rewrite Ht. handle.
  unfold str_eqb. rewrite bool_decide_eq_false_2 by done.
  unfold data_of in *. rewrite Hn. handle. rewrite Hd.
  unfold ask_for_next_selector. handle.
  unfold state_of. autorewrite with store. cbn. done.
Qed.

(** The keyword of the attribute mode, in any letter case and with white
    space around it, only notes the mode: the state stays
    [WAITING_FOR_SELECTOR_VALUE], the pending field name, the url and
    the selectors are as before, and no css is pending. *)
Theorem attribute_keyword_keeps_state s m t :
  state_of m s = Some WAITING_FOR_SELECTOR_VALUE ->
  text m = Some t -> t <> [] -> plain m ->
  lower (strip t) = u "атрибут" ->
  res_val (dispatch m s) = inl tt
  /\ state_of m (res_store (dispatch m s))
     = Some WAITING_FOR_SELECTOR_VALUE
  /\ selector_type (data_of m (res_store (dispatch m s)))
     = Some (u "attr")
  /\ current_selector (data_of m (res_store (dispatch m s)))
     = current_selector (data_of m s)
  /\ selector_value (data_of m (res_store (dispatch m s)))
     = selector_value (data_of m s)
  /\ url (data_of m (res_store (dispatch m s))) = url (data_of m s)
  /\ user_selectors (res_store (dispatch m s)) = user_selectors s.
Proof.
  intros Hs Ht Hne Hp Hk.
  rewrite (dispatch_value s m Hs (F_text_Some m t Ht Hne) Hp).
  destruct (process_value_keyword s m t Ht Hk) as (reply & ->).
  cbn [res_val res_store].
  unfold state_of, data_of in *. autorewrite with store. cbn.
  by rewrite Hs.
Qed.

End SelectorStep.

Lemma selector_turn_shows_stored_spec_witness :
  selectors_of 7 (res_store (toy_dispatch (turn 1 7 " A.Big ") value_store))
  = [(u "links", SelStr (u "a.big"))]
  /\ res_out (toy_dispatch (turn 1 7 " A.Big ") value_store)
     = [Answer 1 (review_text [(u "links", SelStr (u "a.big"))])].
Proof.
  assert (H1 : state_of (turn 1 7 " A.Big ") value_store
               = Some WAITING_FOR_SELECTOR_VALUE)
    by (vm_compute; reflexivity).
  assert (H2 : u " A.Big " <> []) by (vm_compute; discriminate).
  assert (H3 : @plain slash_command (turn 1 7 " A.Big "))
    by compute_plain.
  assert (H4 : @lower basic_case (strip (u " A.Big ")) <> u "атрибут")
    by (vm_compute; discriminate).
  assert (H5 : current_selector (data_of (turn 1 7 " A.Big ") value_store)
               = Some (u "links")) by (vm_compute; reflexivity).
  assert (H6 : user_selectors value_store
                 !! from_user_id (turn 1 7 " A.Big ") = Some [])
    by (vm_compute; reflexivity).
  destruct (@selector_turn_shows_stored_spec basic_case slash_command _ _
              toy_web value_store (turn 1 7 " A.Big ") _ _ _
              H1 eq_refl H2 H3 H4 H5 H6)
    as (_ & Hsel & Hout & _).
  split.
  - etransitivity; [exact Hsel|]. vm_compute. reflexivity.
  - etransitivity; [exact Hout|]. vm_compute. reflexivity.
Defined.

Lemma attribute_keyword_keeps_state_witness :
  state_of (turn 1 7 " Атрибут ")
    (res_store (toy_dispatch (turn 1 7 " Атрибут ") value_store))
  = Some WAITING_FOR_SELECTOR_VALUE
  /\ user_selectors
       (res_store (toy_dispatch (turn 1 7 " Атрибут ") value_store))
     = user_selectors value_store.
Proof.
  assert (H1 : state_of (turn 1 7 " Атрибут ") value_store
               = Some WAITING_FOR_SELECTOR_VALUE)
    by (vm_compute; reflexivity).
  assert (H2 : u " Атрибут " <> []) by (vm_compute; discriminate).
  assert (H3 : @plain slash_command (turn 1 7 " Атрибут "))
    by compute_plain.
  assert (H4 : @lower basic_case (strip (u " Атрибут ")) = u "атрибут")
    by (vm_compute; reflexivity).
  destruct (@attribute_keyword_keeps_state basic_case slash_command _ _
              toy_web value_store (turn 1 7 " Атрибут ") _
              H1 eq_refl H2 H3 H4)
    as (_ & Hstate & _ & _ & _ & _ & Hsel).
  split; assumption.
Defined.

Lemma fetch_page_document_witness :
  res_val (@fetch_page _ _ toy_web (mkParser 30) example_url empty_store)
  = inl (Some toy_page).
Proof.
  apply (@fetch_page_document _ _ toy_web (mkParser 30) example_url
           empty_store toy_page).
  exists (mkResponse 200 (u "<html>")).
  split; [vm_compute; reflexivity|]. split; [cbn; lia|reflexivity].
Defined.

Lemma extract_by_selector_safe_witness :
  exists log found,
    @extract_by_selector _ _ toy_web (mkParser 30) None (u "h1") None
      empty_store
    = mkRes empty_store log (inl found)
    /\ found = [].
Proof.
  destruct (@extract_by_selector_safe _ _ toy_web (mkParser 30) None
              (u "h1") None empty_store)
    as (log & found & E & _ & _ & Hnone & _).
  exists log, found. split; [exact E|]. apply Hnone. reflexivity.
Defined.

Lemma start_and_help_change_nothing_witness :
  toy_dispatch (turn 1 7 "/start") review_store
  = mkRes review_store [Answer 1 start_text] (inl tt)
  /\ toy_dispatch (turn 1 7 "/help") value_store
     = mkRes value_store [Answer 1 help_text] (inl tt).
Proof.
  split.
  - apply (@start_and_help_change_nothing basic_case slash_command _ _
             toy_web review_store (turn 1 7 "/start")).
    vm_compute. reflexivity.
  - apply (@start_and_help_change_nothing basic_case slash_command _ _
             toy_web value_store (turn 1 7 "/help"));
      vm_compute; reflexivity.
Defined.

Lemma turn_touches_own_conversation_witness :
  fsm_record (1, 7)%Z
    (res_store (toy_dispatch (turn 2 7 "example.org") shared_store))
  = fsm_record (1, 7)%Z shared_store
  /\ user_selectors
       (res_store (toy_dispatch (turn 1 8 "/parse") review_store)) !! 7%Z
     = user_selectors review_store !! 7%Z.
Proof.
  split.
  - apply (@turn_touches_own_conversation basic_case slash_command _ _
             toy_web shared_store (turn 2 7 "example.org")).
    vm_compute. discriminate.
  - apply (@turn_touches_own_conversation basic_case slash_command _ _
             toy_web review_store (turn 1 8 "/parse")).
    vm_compute. discriminate.
Defined.
